(** * toml_file: reconciliation of a TOML document against a request

    Shallow embedding of [plugins/modules/files/toml_file.py]
    ([do_toml], lines 132-204, and [run_module], lines 206-245) and the
    properties its specification states about it.

    Modelling conventions.
    - A Python [dict] with string keys is an association list kept in
      insertion order, as CPython keeps it; [Dict.set] overwrites in place or
      appends, [Dict.pop] removes the key.
    - [working_context] is a reference in the source (it aliases [content] or
      [content[section]]); it is modelled as a handle [ctx] that is resolved
      against the current [content] at every use, so that a write through the
      handle is a write to the document.
    - Python exceptions and [module.fail_json] are the two abnormal results
      of the [res] monad.
    - The TOML parser and serializer ([toml.load], [toml.dump]) are an
      external library: they are the fields of a [toml_lib] the development
      is parametric in.
    - The model covers executions in which [mkstemp], the write of the
      temporary file and the rename succeed; the two [except IOError]
      handlers (lines 194-195, 199-202) and the debugging [print] of line 203
      are outside it. *)

From Stdlib Require Import String List Bool ZArith Lia.
Import ListNotations.

Local Open Scope string_scope.
Local Open Scope list_scope.

(** ** Python dictionaries with string keys *)

Module Dict.

Section Ops.
Context {V : Type}.

Fixpoint get (k : string) (d : list (string * V)) : option V :=
  match d with
  | [] => None
  | (k', v) :: r => if String.eqb k k' then Some v else get k r
  end.

(** [k in d] *)
Definition mem (k : string) (d : list (string * V)) : bool :=
  match get k d with Some _ => true | None => false end.

(** [d[k] = v] *)
Fixpoint set (k : string) (v : V) (d : list (string * V)) : list (string * V) :=
  match d with
  | [] => [(k, v)]
  | (k', v') :: r =>
      if String.eqb k k' then (k', v) :: r else (k', v') :: set k v r
  end.

(** [d.pop(k)], for a key that is present (a dictionary holds a key
    once) *)
Fixpoint pop (k : string) (d : list (string * V)) : list (string * V) :=
  match d with
  | [] => []
  | (k', v') :: r =>
      if String.eqb k k' then pop k r else (k', v') :: pop k r
  end.

End Ops.

End Dict.

(** ** Values of a loaded document

    [toml.load] yields nested dictionaries whose leaves are strings,
    integers, booleans and arrays (floats and date-times behave like
    [VInt] in every operation [do_toml] performs: they are no containers
    and never equal a string).  [VNone] is Python's [None]; the parser never
    produces it, line 172 does. *)

#[local] Set Warnings "-register-all".

Inductive value : Type :=
| VNone
| VStr (s : string)
| VInt (z : Z)
| VBool (b : bool)
| VList (l : list value)
| VTable (t : list (string * value)).

Definition table : Type := list (string * value).

(** ** Results: normal return, Python exception, [module.fail_json] *)

Inductive exn : Type := TypeError | AttributeError | KeyError.

Inductive res (A : Type) : Type :=
| Ok (a : A)
| Raise (e : exn)
| FailJson (msg : list string).

Arguments Ok {A} a.
Arguments Raise {A} e.
Arguments FailJson {A} msg.

Definition bind {A B : Type} (m : res A) (f : A -> res B) : res B :=
  match m with
  | Ok a => f a
  | Raise e => Raise e
  | FailJson m => FailJson m
  end.

Notation "x <- m ;; k" := (bind m (fun x => k))
  (at level 100, m at next level, right associativity).

(** ** Module parameters *)

(** [state], restricted by [choices=['absent', 'present']] (line 220). *)
Inductive state_t : Type := present | absent.

(** Truthiness of an optional string parameter: [None] and [""] are falsy. *)
Definition truthy (o : option string) : bool :=
  match o with
  | Some (String _ _) => true
  | _ => false
  end.

(** ["{}".format(o)] *)
Definition fmt (o : option string) : string :=
  match o with
  | Some s => s
  | None => "None"
  end.

(** The Python object a [str]-typed parameter denotes. *)
Definition of_param (o : option string) : value :=
  match o with
  | Some s => VStr s
  | None => VNone
  end.

(** ** Python operations on the objects held by a document *)

(** [o == p] for a document object [o] and a [str]-or-[None] parameter. *)
Definition py_eq (o : value) (p : option string) : bool :=
  match o, p with
  | VNone, None => true
  | VStr s, Some s' => String.eqb s s'
  | _, _ => false
  end.

Definition is_substring (k s : string) : bool :=
  match String.index 0 k s with
  | Some _ => true
  | None => false
  end.

(** [k in o] *)
Definition py_contains (k : string) (o : value) : res bool :=
  match o with
  | VTable t => Ok (Dict.mem k t)
  | VStr s => Ok (is_substring k s)
  | VList l => Ok (existsb (fun v => py_eq v (Some k)) l)
  | VNone | VInt _ | VBool _ => Raise TypeError
  end.

(** [o[k]] *)
Definition py_getitem (k : string) (o : value) : res value :=
  match o with
  | VTable t =>
      match Dict.get k t with
      | Some v => Ok v
      | None => Raise KeyError
      end
  | _ => Raise TypeError
  end.

(** ** The working context *)

Inductive ctx : Type :=
| CtxNone                       (* working_context = None, line 136 *)
| CtxContent                    (* working_context = content, line 165 *)
| CtxSection (name : string).   (* working_context = content[section] *)

(** The object the handle refers to.  A [CtxSection] handle is only ever
    made for a section that is in [content] (lines 151, 155, 159) and no
    entry of [content] is removed while it is live. *)
Definition deref (content : table) (c : ctx) : value :=
  match c with
  | CtxNone => VNone
  | CtxContent => VTable content
  | CtxSection name =>
      match Dict.get name content with
      | Some o => o
      | None => VNone
      end
  end.

(** The document after the dictionary behind the handle became [t]. *)
Definition write_back (content : table) (c : ctx) (t : table) : table :=
  match c with
  | CtxNone => content
  | CtxContent => t
  | CtxSection name => Dict.set name (VTable t) content
  end.

(** [working_context[k] = v] *)
Definition ctx_setitem (content : table) (c : ctx) (k : string) (v : value)
  : res table :=
  match deref content c with
  | VTable t => Ok (write_back content c (Dict.set k v t))
  | _ => Raise TypeError
  end.

(** [working_context.pop(k)] *)
Definition ctx_pop (content : table) (c : ctx) (k : string) : res table :=
  match deref content c with
  | VTable t =>
      if Dict.mem k t then Ok (write_back content c (Dict.pop k t))
      else Raise KeyError
  | VList _ => Raise TypeError
  | VNone | VStr _ | VInt _ | VBool _ => Raise AttributeError
  end.

(** ** The local variables of [do_toml] (lines 133-136, 139/144) *)

Record locals : Type := mkLocals {
  content : table;
  working_context : ctx;
  changed : bool;
  msg : list string
}.

Definition init_locals (c : table) : locals :=
  {| content := c; working_context := CtxNone; changed := false; msg := [] |}.

Definition with_context (l : locals) (c : ctx) : locals :=
  {| content := content l; working_context := c;
     changed := changed l; msg := msg l |}.

Definition with_content (l : locals) (t : table) : locals :=
  {| content := t; working_context := working_context l;
     changed := changed l; msg := msg l |}.

(** [changed = True; msg.append(m)] after the document became [t]. *)
Definition record_change (l : locals) (t : table) (m : string) : locals :=
  {| content := t; working_context := working_context l;
     changed := true; msg := msg l ++ [m] |}.

(** The four messages (lines 153, 163, 176, 182/186). *)
Definition added_section (s : string) : string :=
  "Added section " ++ s ++ ".".

Definition removed_section (s : string) : string :=
  "Removed section " ++ s ++ ".".

Definition added_key (k : string) (value : option string) : string :=
  "Added key " ++ k ++ "=" ++ fmt value ++ ".".

Definition removed_key (k : string) : string :=
  "Removed key " ++ k ++ ".".

Arguments added_section : simpl never.
Arguments removed_section : simpl never.
Arguments added_key : simpl never.
Arguments removed_key : simpl never.

(** ** Lines 146-165: find the section to work on *)

Definition section_step (section key : option string) (state : state_t)
  (l : locals) : locals :=
  if truthy section then
    let s := fmt section in
    match state with
    | present =>
        if negb (Dict.mem s (content l)) then
          with_context
            (record_change l (Dict.set s (VTable []) (content l))
               (added_section s))
            (CtxSection s)
        else with_context l (CtxSection s)
    | absent =>
        if truthy key then
          if Dict.mem s (content l) then with_context l (CtxSection s)
          else l
        else if Dict.mem s (content l) then
          record_change l (Dict.pop s (content l)) (removed_section s)
        else l
    end
  else with_context l CtxContent.

(** ** Lines 167-186: add or remove the key in the working context *)

Definition key_present (k : string) (value : option string) (l : locals)
  : res locals :=
  here <- py_contains k (deref (content l) (working_context l)) ;;
  l1 <- (if negb here then
           t <- ctx_setitem (content l) (working_context l) k VNone ;;
           Ok (with_content l t)
         else Ok l) ;;
  cur <- py_getitem k (deref (content l1) (working_context l1)) ;;
  if negb (py_eq cur value) then
    t <- ctx_setitem (content l1) (working_context l1) k (of_param value) ;;
    Ok (record_change l1 t (added_key k value))
  else Ok l1.

Definition remove_key (k : string) (l : locals) : res locals :=
  t <- ctx_pop (content l) (working_context l) k ;;
  Ok (record_change l t (removed_key k)).

Definition key_absent (k : string) (value : option string) (l : locals)
  : res locals :=
  here <- py_contains k (deref (content l) (working_context l)) ;;
  if here then
    if negb (truthy value) then remove_key k l
    else
      cur <- py_getitem k (deref (content l) (working_context l)) ;;
      if py_eq cur value then remove_key k l else Ok l
  else Ok l.

Definition key_step (key value : option string) (state : state_t)
  (l : locals) : res locals :=
  if truthy key then
    match state with
    | present => key_present (fmt key) value l
    | absent => key_absent (fmt key) value l
    end
  else Ok l.

(** Lines 146-186 as one function of the loaded document. *)
Definition reconcile (section key value : option string) (state : state_t)
  (c : table) : res locals :=
  key_step key value state (section_step section key state (init_locals c)).

(** ** The external TOML library and the file system *)

(** [toml_load] is [None] when the parser raises [TomlDecodeError]. *)
Record toml_lib : Type := mkTomlLib {
  bytes : Type;
  toml_load : bytes -> option table;
  toml_dumps : table -> bytes
}.

(** The result dictionaries handed to [exit_json]. *)
Inductive jval : Type :=
| JBool (b : bool)
| JStr (s : string)
| JDict (d : list (string * jval)).

Definition jdict : Type := list (string * jval).

Section Module_run.

Context (L : toml_lib).

(** What the run did to the file system, oldest first. *)
Inductive event : Type :=
| EvDumpTmp (b : bytes L)              (* mkstemp + toml.dump, lines 190-193 *)
| EvAtomicMove (dst : string)          (* module.atomic_move, line 198 *)
| EvSetFsAttributes (path : string).   (* line 241 *)

Record world : Type := mkWorld {
  files : list (string * bytes L);
  fs_log : list event
}.

(** Lines 137-144. *)
Definition load (path : string) (w : world) : res table :=
  match Dict.get path (files w) with
  | Some b =>
      match toml_load L b with
      | Some c => Ok c
      | None =>
          FailJson [("Could not decode file at " ++ path ++ " as TOML")%string]
      end
  | None => Ok []
  end.

(** Lines 190-198: the document goes to a temporary file, which is then
    renamed over [path]. *)
Definition persist (path : string) (c : table) (w : world) : world :=
  {| files := Dict.set path (toml_dumps L c) (files w);
     fs_log := fs_log w ++ [EvDumpTmp (toml_dumps L c); EvAtomicMove path] |}.

(** Line 204. *)
Definition result_of (l : locals) : jdict :=
  [ ("changed", JBool (changed l));
    ("origin_message", JDict [("before", JStr ""); ("after", JStr "")]);
    ("msg", JStr (String.concat " " (msg l))) ].

(** Lines 132-204: the load (137-144), the two steps (146-186), the write
    (188-202) and the result (204).  [check_mode] is [module.check_mode];
    [create] is a parameter the body never reads.  A run that raises or
    fails does so before the write, with the file system as it was. *)
Definition do_toml (check_mode : bool) (path : string)
  (section key value : option string) (state : state_t) (create : bool)
  (w : world) : res (jdict * world) :=
  c <- load path w ;;
  l <- reconcile section key value state c ;;
  let w' := if changed l && negb check_mode then persist path (content l) w
            else w in
  Ok (result_of l, w').

(** Lines 208-212. *)
Definition initial_result : jdict :=
  [ ("changed", JBool false);
    ("original_message", JStr "");
    ("message", JStr "") ].

(** Lines 206-245; [Ok] is the dictionary given to [module.exit_json]. *)
Definition run_module (check_mode : bool) (path : string)
  (section key value : option string) (state : state_t) (create : bool)
  (w : world) : res (jdict * world) :=
  if check_mode then Ok (initial_result, w)
  else
    r <- do_toml check_mode path section key value state create w ;;
    let '(result, w1) := r in
    let w2 := if negb check_mode && Dict.mem path (files w1)
              then {| files := files w1;
                      fs_log := fs_log w1 ++ [EvSetFsAttributes path] |}
              else w1 in
    Ok (result, w2).

End Module_run.

Arguments EvDumpTmp {L} b.
Arguments EvAtomicMove {L} dst.
Arguments EvSetFsAttributes {L} path.
Arguments mkWorld {L} files fs_log.
Arguments files {L} w.
Arguments fs_log {L} w.
Arguments load {L} path w.
Arguments persist {L} path c w.
Arguments do_toml {L} check_mode path section key value state create w.
Arguments run_module {L} check_mode path section key value state create w.

(** A library whose files hold the document itself; it stands for the
    parser and serializer wherever a concrete run is evaluated. *)
Definition plain_toml : toml_lib :=
  {| bytes := table; toml_load := fun b => Some b; toml_dumps := fun c => c |}.

Definition empty_world : world plain_toml := {| files := []; fs_log := [] |}.

(** ** The dictionary a key is looked up in

    The dictionary lines 147-165 bind [working_context] to when no section
    is asked for ([content] itself) or the section asked for is a table of
    the document, and the handle that stands for it. *)

Definition context_handle (section : option string) : ctx :=
  if truthy section then CtxSection (fmt section) else CtxContent.

Definition context_table (section : option string) (c : table)
  : option table :=
  if truthy section then
    match Dict.get (fmt section) c with
    | Some (VTable t) => Some t
    | _ => None
    end
  else Some c.

(** The locals a run starts the key step with when the section step had
    nothing to do. *)
Definition settled (l : locals) : locals :=
  {| content := content l; working_context := working_context l;
     changed := false; msg := [] |}.

(** ** Reading back what was written

    [toml.dump] followed by [toml.load] is outside this module.  [reloads v
    v'] is what the on-disk properties ask of it: [v'] is [v] up to the
    order of the keys and up to entries that hold [None], which the
    serializer may drop (a key that is not there stays not there). *)





(** Induction on values, through the lists and dictionaries they nest. *)
Section Value_induction.

Variable P : value -> Prop.
Hypothesis HNone : P VNone.
Hypothesis HStr : forall s, P (VStr s).
Hypothesis HInt : forall z, P (VInt z).
Hypothesis HBool : forall b, P (VBool b).
Hypothesis HList : forall l, Forall P l -> P (VList l).
Hypothesis HTable :
  forall t, Forall (fun kv : string * value => P (snd kv)) t -> P (VTable t).


End Value_induction.

(** The document of the specification's scenarios 2 to 4. *)
Definition drinks_doc : table :=
  [("drinks", VTable [("fav", VStr "lemonade")])].


(** The key is in place: the present branch (lines 171-176) has nothing to
    report. *)
Definition holds (k : string) (value : option string) (t : table) : bool :=
  match Dict.get k t with
  | Some cur => py_eq cur value
  | None => match value with None => true | Some _ => false end
  end.

(** The key is to go: the absent branch (lines 178-186) removes it. *)
Definition goes (k : string) (value : option string) (t : table) : bool :=
  match Dict.get k t with
  | Some cur => negb (truthy value) || py_eq cur value
  | None => false
  end.

(** The object is a dictionary. *)
Definition is_table (o : value) : Prop := exists t, o = VTable t.

(** * Properties *)

(** ** Dictionary laws *)

Module DictFacts.
Import Dict.

Section Laws.
Context {V : Type}.
Implicit Types (k : string) (d : list (string * V)).

Lemma get_set_same k (v : V) d : get k (set k v d) = Some v.
Proof.
  induction d as [|[k' v'] r IH]; simpl.
  - now rewrite String.eqb_refl.
  - destruct (String.eqb k k') eqn:E; simpl; rewrite E; auto.
Qed.

Lemma get_set_other k k' (v : V) d :
  k <> k' -> get k' (set k v d) = get k' d.
Proof.
  intros Hne. induction d as [|[k0 v0] r IH]; simpl.
  - destruct (String.eqb k' k) eqn:E; auto.
    apply String.eqb_eq in E. congruence.
  - destruct (String.eqb k k0) eqn:E; simpl.
    + apply String.eqb_eq in E; subst k0.
      destruct (String.eqb k' k) eqn:E'; auto.
      apply String.eqb_eq in E'. congruence.
    + now rewrite IH.
Qed.

Lemma get_pop_same k d : get k (pop k d) = None.
Proof.
  induction d as [|[k' v'] r IH]; simpl; auto.
  destruct (String.eqb k k') eqn:E; simpl; auto. now rewrite E.
Qed.

Lemma get_pop_other k k' d : k <> k' -> get k' (pop k d) = get k' d.
Proof.
  intros Hne. induction d as [|[k0 v0] r IH]; simpl; auto.
  destruct (String.eqb k k0) eqn:E; simpl.
  - apply String.eqb_eq in E; subst k0.
    destruct (String.eqb k' k) eqn:E'; auto.
    apply String.eqb_eq in E'. congruence.
  - now rewrite IH.
Qed.

Lemma mem_set_same k (v : V) d : mem k (set k v d) = true.
Proof. unfold mem. now rewrite get_set_same. Qed.

Lemma mem_pop_same k d : mem k (pop k d) = false.
Proof. unfold mem. now rewrite get_pop_same. Qed.

Lemma mem_false_get k d : mem k d = false -> get k d = None.
Proof. unfold mem. destruct (get k d); congruence. Qed.

Lemma mem_true_get k d : mem k d = true -> exists v, get k d = Some v.
Proof. unfold mem. destruct (get k d) as [v|]; [eauto | congruence]. Qed.

Lemma get_mem k d (v : V) : get k d = Some v -> mem k d = true.
Proof. unfold mem. now intros ->. Qed.

Lemma get_none_mem k d : get k d = None -> mem k d = false.
Proof. unfold mem. now intros ->. Qed.

End Laws.

End DictFacts.

(** ** The key step on a dictionary *)

Import DictFacts.

Lemma deref_write_back d c t t' :
  deref d c = VTable t -> deref (write_back d c t') c = VTable t'.
Proof.
  destruct c as [| |s]; simpl; intros H.
  - discriminate.
  - reflexivity.
  - now rewrite get_set_same.
Qed.

Lemma key_present_table k v l t :
  deref (content l) (working_context l) = VTable t ->
  key_present k v l =
    Ok (match Dict.get k t with
        | Some cur =>
            if py_eq cur v then l
            else record_change l
                   (write_back (content l) (working_context l)
                      (Dict.set k (of_param v) t))
                   (added_key k v)
        | None =>
            let l1 := with_content l
                        (write_back (content l) (working_context l)
                           (Dict.set k VNone t)) in
            if py_eq VNone v then l1
            else record_change l1
                   (write_back (content l1) (working_context l1)
                      (Dict.set k (of_param v) (Dict.set k VNone t)))
                   (added_key k v)
        end).
Proof.
  intros H. unfold key_present. rewrite H. cbn [py_contains bind].
  unfold Dict.mem.
  destruct (Dict.get k t) as [cur|] eqn:G; cbn [negb bind].
  - rewrite H. cbn [py_getitem]. rewrite G. cbn [bind].
    destruct (py_eq cur v); cbn [negb]; auto.
    unfold ctx_setitem. now rewrite H.
  - unfold ctx_setitem at 1. rewrite H. cbn [bind with_content content working_context].
    rewrite (deref_write_back _ _ _ _ H). cbn [py_getitem].
    rewrite get_set_same. cbn [bind].
    destruct (py_eq VNone v); cbn [negb]; auto.
    unfold ctx_setitem. cbn [with_content content working_context].
    now rewrite (deref_write_back _ _ _ _ H).
Qed.

Lemma key_absent_table k v l t :
  deref (content l) (working_context l) = VTable t ->
  key_absent k v l =
    Ok (match Dict.get k t with
        | Some cur =>
            if negb (truthy v) || py_eq cur v then
              record_change l
                (write_back (content l) (working_context l) (Dict.pop k t))
                (removed_key k)
            else l
        | None => l
        end).
Proof.
  intros H. unfold key_absent, remove_key, ctx_pop. rewrite H. simpl.
  unfold Dict.mem.
  destruct (Dict.get k t) as [cur|] eqn:G; simpl; auto.
  destruct (truthy v); simpl; auto.
  destruct (py_eq cur v); simpl; auto.
Qed.

Lemma key_present_ok k v l l' :
  key_present k v l = Ok l' ->
  exists t, deref (content l) (working_context l) = VTable t.
Proof.
  unfold key_present.
  destruct (deref (content l) (working_context l)) as [|s|z|b|xs|t] eqn:D;
    simpl; try discriminate; eauto.
  - destruct (is_substring k s); simpl.
    + rewrite D. discriminate.
    + unfold ctx_setitem. rewrite D. discriminate.
  - destruct (existsb _ xs); simpl.
    + rewrite D. discriminate.
    + unfold ctx_setitem. rewrite D. discriminate.
Qed.


(** ** Reconciling the reconciled document *)

Lemma py_eq_of_param v : py_eq (of_param v) v = true.
Proof. destruct v as [s|]; cbn; auto. apply String.eqb_refl. Qed.

Lemma mem_write_back s d t :
  Dict.mem s d = true -> Dict.mem s (write_back d (CtxSection s) t) = true.
Proof. intros _. cbn. apply mem_set_same. Qed.

Lemma key_present_fixed k v l t cur :
  deref (content l) (working_context l) = VTable t ->
  Dict.get k t = Some cur -> py_eq cur v = true ->
  key_present k v l = Ok l.
Proof.
  intros D G E. rewrite (key_present_table _ _ _ _ D). now rewrite G, E.
Qed.

Lemma key_absent_fixed k v l t :
  deref (content l) (working_context l) = VTable t ->
  Dict.get k t = None ->
  key_absent k v l = Ok l.
Proof.
  intros D G. rewrite (key_absent_table _ _ _ _ D). now rewrite G.
Qed.

(** What a successful [key_present] leaves behind. *)
Lemma key_present_post k v l l' :
  key_present k v l = Ok l' ->
  working_context l' = working_context l /\
  (exists t' cur,
      deref (content l') (working_context l') = VTable t' /\
      Dict.get k t' = Some cur /\ py_eq cur v = true) /\
  (forall s, working_context l = CtxSection s ->
             Dict.mem s (content l) = true -> Dict.mem s (content l') = true).
Proof.
  intros H. destruct (key_present_ok _ _ _ _ H) as [t D].
  rewrite (key_present_table _ _ _ _ D) in H.
  destruct (Dict.get k t) as [cur|] eqn:G.
  - destruct (py_eq cur v) eqn:E; injection H as <-.
    + repeat split; eauto.
    + cbn [record_change content working_context]. repeat split.
      * exists (Dict.set k (of_param v) t), (of_param v).
        rewrite (deref_write_back _ _ _ _ D), get_set_same, py_eq_of_param.
        auto.
      * intros s -> M. now apply mem_write_back.
  - cbv zeta in H.
    assert (D1 : deref (write_back (content l) (working_context l)
                          (Dict.set k VNone t)) (working_context l)
                 = VTable (Dict.set k VNone t))
      by apply (deref_write_back _ _ _ _ D).
    destruct (py_eq VNone v) eqn:E; injection H as <-;
      cbn [record_change with_content content working_context].
    + repeat split.
      * exists (Dict.set k VNone t), VNone.
        now rewrite D1, get_set_same.
      * intros s -> M. now apply mem_write_back.
    + repeat split.
      * exists (Dict.set k (of_param v) (Dict.set k VNone t)), (of_param v).
        rewrite (deref_write_back _ _ _ _ D1), get_set_same, py_eq_of_param.
        auto.
      * intros s -> M. apply mem_write_back. now apply mem_write_back.
Qed.

(** What a successful [key_absent] leaves behind: the key was removed from
    a dictionary, or nothing happened and nothing will. *)
Lemma key_absent_post k v l l' :
  key_absent k v l = Ok l' ->
  working_context l' = working_context l /\
  ((exists t',
       deref (content l') (working_context l') = VTable t' /\
       Dict.get k t' = None) \/
   (l' = l /\
    forall l2, deref (content l2) (working_context l2)
               = deref (content l) (working_context l) ->
               key_absent k v l2 = Ok l2)) /\
  (forall s, working_context l = CtxSection s ->
             Dict.mem s (content l) = true -> Dict.mem s (content l') = true).
Proof.
  intros H.
  destruct (deref (content l) (working_context l)) as [|s|z|b|xs|t] eqn:D.
  6:{ rewrite (key_absent_table _ _ _ _ D) in H.
      destruct (Dict.get k t) as [cur|] eqn:G.
      - destruct (negb (truthy v) || py_eq cur v) eqn:E; injection H as <-.
        + cbn [record_change content working_context]. repeat split.
          * left. exists (Dict.pop k t).
            now rewrite (deref_write_back _ _ _ _ D), get_pop_same.
          * intros s -> M. now apply mem_write_back.
        + repeat split; auto. right. split; auto.
          intros l2 D2.
          rewrite (key_absent_table _ _ _ _ D2). now rewrite G, E.
      - injection H as <-. repeat split; auto.
        left. exists t. auto. }
  all: revert H; unfold key_absent, remove_key, ctx_pop; rewrite D;
    cbn [py_contains bind]; try discriminate.
  - destruct (is_substring k s) eqn:I.
    + destruct (truthy v); cbn; discriminate.
    + intros [= <-]. repeat split; auto. right. split; auto.
      intros l2 ->. cbn [py_contains bind]. now rewrite I.
  - destruct (existsb _ xs) eqn:I.
    + destruct (truthy v); cbn; discriminate.
    + intros [= <-]. repeat split; auto. right. split; auto.
      intros l2 ->. cbn [py_contains bind]. now rewrite I.
Qed.

Lemma key_step_settles key value state l l' :
  key_step key value state l = Ok l' ->
  working_context l' = working_context l /\
  key_step key value state (settled l') = Ok (settled l') /\
  (forall s, working_context l = CtxSection s ->
             Dict.mem s (content l) = true -> Dict.mem s (content l') = true).
Proof.
  unfold key_step. destruct (truthy key).
  2:{ intros [= <-]. auto. }
  destruct state; intros H.
  - destruct (key_present_post _ _ _ _ H) as (W & (t' & cur & D & G & E) & M).
    repeat split; auto.
    now apply (key_present_fixed _ _ _ t' cur).
  - destruct (key_absent_post _ _ _ _ H) as (W & [(t' & D & G)|(-> & N)] & M).
    + repeat split; auto. now apply (key_absent_fixed _ _ _ t').
    + repeat split; auto.
Qed.

(** X1: reconciling the reconciled document changes nothing.  Whenever
    the two steps return, running them again on the document they left
    reports no change and no message and leaves that document as it is. *)
Lemma reconcile_again section key value state c l :
  reconcile section key value state c = Ok l ->
  reconcile section key value state (content l) = Ok (settled l).
Proof.
  unfold reconcile. intros H.
  destruct (key_step_settles _ _ _ _ _ H) as (W & K & M).
  assert (S2 : section_step section key state (init_locals (content l))
               = settled l); [|now rewrite S2].
  revert H W M. unfold section_step, init_locals, settled.
  cbn [content working_context changed msg].
  destruct (truthy section) eqn:TS.
  2:{ cbn. intros _ -> _. reflexivity. }
  destruct state.
  - destruct (Dict.mem (fmt section) c) eqn:Mc;
      cbn [negb with_context record_change content working_context changed msg];
      intros _ -> M; rewrite (M _ eq_refl); auto.
    apply mem_set_same.
  - destruct (truthy key) eqn:TK.
    + destruct (Dict.mem (fmt section) c) eqn:Mc;
        cbn [with_context content working_context changed msg].
      * intros _ -> M. now rewrite (M _ eq_refl Mc).
      * unfold key_step. rewrite TK. unfold key_absent. cbn. discriminate.
    + unfold key_step. rewrite TK.
      destruct (Dict.mem (fmt section) c) eqn:Mc; intros [= <-] _ _;
        cbn [record_change content working_context changed msg].
      * now rewrite mem_pop_same.
      * now rewrite Mc.
Qed.

(** ** The section step in front of a dictionary *)

Lemma section_step_on_table section key state c t :
  truthy key = true ->
  context_table section c = Some t ->
  section_step section key state (init_locals c) =
    {| content := c; working_context := context_handle section;
       changed := false; msg := [] |} /\
  deref c (context_handle section) = VTable t.
Proof.
  unfold context_table, context_handle, section_step, init_locals.
  intros TK. rewrite TK.
  cbn [content working_context changed msg].
  destruct (truthy section).
  - unfold Dict.mem. cbn [deref].
    destruct (Dict.get (fmt section) c) as [[| | | | |t']|]; try discriminate.
    intros [= ->]. destruct state; auto.
  - intros [= ->]. auto.
Qed.

Lemma truthy_nonempty k : k <> "" -> truthy (Some k) = true.
Proof. destruct k; [congruence | reflexivity]. Qed.

(** Removing a key that is in the working dictionary: the value guard of
    lines 179-186. *)
Lemma reconcile_absent_key section k value c t cur :
  k <> "" ->
  context_table section c = Some t ->
  Dict.get k t = Some cur ->
  reconcile section (Some k) value absent c =
    Ok (if negb (truthy value) || py_eq cur value
        then {| content :=
                  write_back c (context_handle section) (Dict.pop k t);
                working_context := context_handle section;
                changed := true;
                msg := [removed_key k] |}
        else {| content := c;
                working_context := context_handle section;
                changed := false;
                msg := [] |}).
Proof.
  intros Hk Ht Hg. unfold reconcile, key_step.
  rewrite (truthy_nonempty k Hk).
  destruct (section_step_on_table section (Some k) absent c t
              (truthy_nonempty k Hk) Ht) as [-> D].
  erewrite key_absent_table by exact D.
  cbn [fmt]. rewrite Hg.
  destruct (negb (truthy value) || py_eq cur value); reflexivity.
Qed.

(** ** The run as a whole *)

Lemma do_toml_unfold (L : toml_lib) cm path section key value state create
  (w : world L) c l :
  load path w = Ok c ->
  reconcile section key value state c = Ok l ->
  do_toml cm path section key value state create w =
    Ok (result_of l,
        if changed l && negb cm then persist path (content l) w else w).
Proof. intros Hl Hr. unfold do_toml. now rewrite Hl; cbn [bind]; rewrite Hr. Qed.

Lemma do_toml_inv (L : toml_lib) cm path section key value state create
  (w : world L) r w' :
  do_toml cm path section key value state create w = Ok (r, w') ->
  exists c l,
    load path w = Ok c /\
    reconcile section key value state c = Ok l /\
    r = result_of l /\
    w' = (if changed l && negb cm then persist path (content l) w else w).
Proof.
  unfold do_toml.
  destruct (load path w) as [c| |] eqn:Hl; cbn [bind]; try discriminate.
  destruct (reconcile section key value state c) as [l| |] eqn:Hr;
    cbn [bind]; try discriminate.
  intros [= <- <-]. exists c, l. repeat split; auto.
Qed.

Lemma persist_log (L : toml_lib) path c (w : world L) : persist path c w <> w.
Proof.
  intros E. apply (f_equal fs_log) in E. cbn in E.
  apply (f_equal (@length _)) in E. rewrite length_app in E. cbn in E. lia.
Qed.


(** ** The scenarios of the specification, evaluated *)


Example scenario_already_set :
  reconcile (Some "drinks") (Some "fav") (Some "lemonade") present drinks_doc
  = Ok {| content := drinks_doc; working_context := CtxSection "drinks";
          changed := false; msg := [] |}.
Proof. reflexivity. Qed.

Example scenario_remove_key :
  reconcile (Some "drinks") (Some "fav") None absent drinks_doc
  = Ok {| content := [("drinks", VTable [])];
          working_context := CtxSection "drinks";
          changed := true; msg := ["Removed key fav."] |}.
Proof. reflexivity. Qed.

Example scenario_value_mismatch :
  reconcile (Some "drinks") (Some "fav") (Some "tea") absent drinks_doc
  = Ok {| content := drinks_doc; working_context := CtxSection "drinks";
          changed := false; msg := [] |}.
Proof. reflexivity. Qed.

Example scenario_remove_section :
  reconcile (Some "drinks") None None absent [("drinks", VTable [])]
  = Ok {| content := []; working_context := CtxNone;
          changed := true; msg := ["Removed section drinks."] |}.
Proof. reflexivity. Qed.

(** A section name that is a top-level string of the document: the key
    step indexes a [str] (lines 171-173). *)
Example scenario_section_is_a_string :
  reconcile (Some "title") (Some "fav") (Some "lemonade") present
    [("title", VStr "TOML Example")]
  = Raise TypeError.
Proof. reflexivity. Qed.

(** ** Semantic no-ops *)

(** C2: removing a key from a section that is not in the document is a
    semantic no-op, yet [do_toml] does not return: [working_context] is
    still [None] at line 178 and [key in working_context] raises
    [TypeError], whatever the document and the value. *)
Theorem absent_key_missing_section_raises (L : toml_lib) cm path section key
  value create (w : world L) c :
  truthy section = true -> truthy key = true ->
  load path w = Ok c ->
  Dict.mem (fmt section) c = false ->
  reconcile section key value absent c = Raise TypeError /\
  do_toml cm path section key value absent create w = Raise TypeError.
Proof.
  intros TS TK Hl M.
  assert (R : reconcile section key value absent c = Raise TypeError).
  { unfold reconcile, section_step, key_step, init_locals.
    rewrite TS, TK. cbn [content]. rewrite M. reflexivity. }
  split; auto. unfold do_toml. rewrite Hl. cbn [bind]. now rewrite R.
Qed.

Lemma absent_key_missing_section_raises_witness :
  reconcile (Some "drinks") (Some "fav") None absent [] = Raise TypeError /\
  do_toml false "/etc/conf.toml" (Some "drinks") (Some "fav") None absent true
    empty_world = Raise TypeError.
Proof.
  apply (absent_key_missing_section_raises plain_toml false "/etc/conf.toml"
           (Some "drinks") (Some "fav") None true empty_world []);
    reflexivity.
Defined.

(** The no-ops the code does serve: a section to remove that is not there,
    a key to remove that its dictionary does not have, a key that already
    holds the value. *)
Lemma absent_missing_section_noop section value c :
  truthy section = true ->
  Dict.mem (fmt section) c = false ->
  reconcile section None value absent c = Ok (init_locals c).
Proof.
  intros TS M. unfold reconcile, section_step, key_step, init_locals.
  rewrite TS. cbn [content truthy]. now rewrite M.
Qed.



(** ** Check mode *)

(** C3: a check-mode run does not compute the outcome of the real run.
    [run_module] leaves at lines 234-235 with the initial result, before
    [do_toml] is called: every check-mode run reports [changed = False]
    and an empty message, also where the real run creates a section and a
    key. *)
Theorem check_mode_run_reports_nothing :
  (forall (L : toml_lib) path section key value state create (w : world L),
      run_module true path section key value state create w
      = Ok (initial_result, w)) /\
  run_module false "/etc/conf.toml" (Some "drinks") (Some "fav")
    (Some "lemonade") present true empty_world
  = Ok ([ ("changed", JBool true);
          ("origin_message", JDict [("before", JStr ""); ("after", JStr "")]);
          ("msg", JStr "Added section drinks. Added key fav=lemonade.") ],
        @mkWorld plain_toml
          [("/etc/conf.toml", [("drinks", VTable [("fav", VStr "lemonade")])])]
          [@EvDumpTmp plain_toml [("drinks", VTable [("fav", VStr "lemonade")])];
           EvAtomicMove "/etc/conf.toml";
           EvSetFsAttributes "/etc/conf.toml"]).
Proof. split; reflexivity. Qed.

(** ** The result dictionary *)

(** C4: the dictionary a real run hands to [exit_json] is the one built at
    line 204.  Its fields are [changed], [origin_message] and [msg]; it has
    no field [message] and no field [original_message].  [msg] is the
    messages joined by a space, in the order they were appended. *)
Theorem result_fields (L : toml_lib) path section key value state create
  (w : world L) r w' :
  run_module false path section key value state create w = Ok (r, w') ->
  Dict.get "message" r = None /\
  Dict.get "original_message" r = None /\
  exists c l,
    load path w = Ok c /\
    reconcile section key value state c = Ok l /\
    r = [ ("changed", JBool (changed l));
          ("origin_message", JDict [("before", JStr ""); ("after", JStr "")]);
          ("msg", JStr (String.concat " " (msg l))) ].
Proof.
  unfold run_module.
  destruct (do_toml false path section key value state create w)
    as [[r0 w0]| |] eqn:H; cbn [bind]; try discriminate.
  intros [= <- _].
  destruct (do_toml_inv _ _ _ _ _ _ _ _ _ _ _ H) as (c & l & Hl & Hr & -> & _).
  repeat split; try reflexivity. now exists c, l.
Qed.

Lemma result_fields_witness :
  let r := [ ("changed", JBool true);
             ("origin_message",
              JDict [("before", JStr ""); ("after", JStr "")]);
             ("msg", JStr "Added section drinks. Added key fav=lemonade.") ] in
  let w1 :=
    @mkWorld plain_toml
      [("/etc/conf.toml", [("drinks", VTable [("fav", VStr "lemonade")])])]
      [@EvDumpTmp plain_toml [("drinks", VTable [("fav", VStr "lemonade")])];
       EvAtomicMove "/etc/conf.toml";
       EvSetFsAttributes "/etc/conf.toml"] in
  run_module false "/etc/conf.toml" (Some "drinks") (Some "fav")
    (Some "lemonade") present true empty_world = Ok (r, w1) /\
  Dict.get "message" r = None /\
  Dict.get "original_message" r = None /\
  exists c l,
    load "/etc/conf.toml" empty_world = Ok c /\
    reconcile (Some "drinks") (Some "fav") (Some "lemonade") present c
    = Ok l /\
    r = [ ("changed", JBool (changed l));
          ("origin_message", JDict [("before", JStr ""); ("after", JStr "")]);
          ("msg", JStr (String.concat " " (msg l))) ].
Proof.
  cbv zeta. split; [reflexivity|].
  eapply (result_fields plain_toml "/etc/conf.toml" (Some "drinks")
            (Some "fav") (Some "lemonade") present true empty_world).
  reflexivity.
Defined.

(** ** Removing a key *)

(** C5, as the code has it: with the key in the working dictionary, a
    request [state=absent] removes the key and records the change with
    ["Removed key {key}."] when the value is falsy (omitted, or the empty
    string) and when the value is the key's current value; for any other
    value the document is untouched, [changed] is false and no message is
    emitted. *)
Theorem absent_key_value_guard section k value c t cur :
  k <> "" ->
  context_table section c = Some t ->
  Dict.get k t = Some cur ->
  (truthy value = false \/ py_eq cur value = true ->
   reconcile section (Some k) value absent c =
     Ok {| content := write_back c (context_handle section) (Dict.pop k t);
           working_context := context_handle section;
           changed := true;
           msg := ["Removed key " ++ k ++ "."]%string |}) /\
  (truthy value = true -> py_eq cur value = false ->
   reconcile section (Some k) value absent c =
     Ok {| content := c;
           working_context := context_handle section;
           changed := false;
           msg := [] |}).
Proof.
  intros Hk Ht Hg.
  rewrite (reconcile_absent_key section k value c t cur Hk Ht Hg).
  split.
  - intros [-> | ->]; [reflexivity | now rewrite orb_true_r].
  - intros -> ->. reflexivity.
Qed.

Lemma absent_key_value_guard_witness :
  "fav" <> "" /\
  context_table (Some "drinks") [("drinks", VTable [("fav", VStr "lemonade")])]
    = Some [("fav", VStr "lemonade")] /\
  Dict.get "fav" [("fav", VStr "lemonade")] = Some (VStr "lemonade") /\
  reconcile (Some "drinks") (Some "fav") (Some "tea") absent
    [("drinks", VTable [("fav", VStr "lemonade")])]
  = Ok {| content := [("drinks", VTable [("fav", VStr "lemonade")])];
          working_context := CtxSection "drinks";
          changed := false;
          msg := [] |}.
Proof.
  assert (Hk : "fav" <> "") by discriminate.
  split; [exact Hk | split; [reflexivity | split; [reflexivity|]]].
  exact (proj2 (absent_key_value_guard (Some "drinks") "fav" (Some "tea")
                  [("drinks", VTable [("fav", VStr "lemonade")])]
                  [("fav", VStr "lemonade")] (VStr "lemonade")
                  Hk eq_refl eq_refl) eq_refl eq_refl).
Defined.

(** C5 as stated fails for the supplied value [""]: the key holds
    ["lemonade"], the value does not match, and the key is removed all the
    same, with a change and a message. *)
Lemma empty_value_is_no_guard :
  py_eq (VStr "lemonade") (Some "") = false /\
  ~ (exists l,
       reconcile (Some "drinks") (Some "fav") (Some "") absent
         [("drinks", VTable [("fav", VStr "lemonade")])] = Ok l /\
       content l = [("drinks", VTable [("fav", VStr "lemonade")])] /\
       changed l = false /\ msg l = []).
Proof.
  split; [reflexivity|].
  intros (l & H & _ & C & _). cbv in H. injection H as <-. discriminate C.
Qed.

(** C9: for [state=absent] the empty string is the omitted value: the two
    runs are the same run, and a key the working dictionary has is removed
    whatever it holds. *)
Theorem absent_empty_value_is_no_value :
  (forall section key c,
      reconcile section key (Some "") absent c
      = reconcile section key None absent c) /\
  (forall section k c t cur,
      k <> "" -> context_table section c = Some t ->
      Dict.get k t = Some cur ->
      reconcile section (Some k) (Some "") absent c =
        Ok {| content := write_back c (context_handle section) (Dict.pop k t);
              working_context := context_handle section;
              changed := true;
              msg := ["Removed key " ++ k ++ "."]%string |}).
Proof.
  split.
  - intros section key c. unfold reconcile, key_step.
    destruct (truthy key); reflexivity.
  - intros section k c t cur Hk Ht Hg.
    now rewrite (reconcile_absent_key section k (Some "") c t cur Hk Ht Hg).
Qed.

Lemma absent_empty_value_is_no_value_witness :
  "fav" <> "" /\
  context_table None [("fav", VInt 3)] = Some [("fav", VInt 3)] /\
  Dict.get "fav" [("fav", VInt 3)] = Some (VInt 3) /\
  reconcile None (Some "fav") (Some "") absent [("fav", VInt 3)]
  = Ok {| content := []; working_context := CtxContent;
          changed := true; msg := ["Removed key fav."] |}.
Proof.
  assert (Hk : "fav" <> "") by discriminate.
  split; [exact Hk | split; [reflexivity | split; [reflexivity|]]].
  exact (proj2 absent_empty_value_is_no_value None "fav" [("fav", VInt 3)]
           [("fav", VInt 3)] (VInt 3) Hk eq_refl eq_refl).
Defined.

(** ** Persistence *)

(** C6: a run of [do_toml] that returns has written the temporary file and
    moved it over [path] exactly when [changed] is true and the run is no
    dry run; otherwise the file system is as it was. *)
Theorem persistence_iff_changed (L : toml_lib) cm path section key value
  state create (w : world L) r w' :
  do_toml cm path section key value state create w = Ok (r, w') ->
  exists c l,
    load path w = Ok c /\
    reconcile section key value state c = Ok l /\
    Dict.get "changed" r = Some (JBool (changed l)) /\
    (w' = {| files := Dict.set path (toml_dumps L (content l)) (files w);
             fs_log := fs_log w ++ [EvDumpTmp (toml_dumps L (content l));
                                    EvAtomicMove path] |}
     <-> changed l = true /\ cm = false) /\
    (w' = w <-> ~ (changed l = true /\ cm = false)).
Proof.
  intros H.
  destruct (do_toml_inv _ _ _ _ _ _ _ _ _ _ _ H) as (c & l & Hl & Hr & -> & ->).
  exists c, l.
  split; [exact Hl | split; [exact Hr | split; [reflexivity|]]].
  fold (persist path (content l) w).
  destruct (changed l), cm; cbn [andb negb]; (split; split);
    try (intros [? ?]; discriminate);
    try (intros _; reflexivity);
    try (intros _; split; reflexivity);
    try (intros _ [? ?]; discriminate);
    try (intros E; exfalso; symmetry in E; now apply persist_log in E);
    try (intros E; exfalso; now apply persist_log in E);
    try (intros N; exfalso; apply N; split; reflexivity).
Qed.

Lemma persistence_iff_changed_witness :
  let w1 :=
    @mkWorld plain_toml [("/etc/conf.toml", [("drinks", VTable [])])]
      [@EvDumpTmp plain_toml [("drinks", VTable [])];
       EvAtomicMove "/etc/conf.toml"] in
  let r := [ ("changed", JBool true);
             ("origin_message",
              JDict [("before", JStr ""); ("after", JStr "")]);
             ("msg", JStr "Added section drinks.") ] in
  do_toml false "/etc/conf.toml" (Some "drinks") None None present true
    empty_world = Ok (r, w1) /\
  exists c l,
    load "/etc/conf.toml" empty_world = Ok c /\
    reconcile (Some "drinks") None None present c = Ok l /\
    Dict.get "changed" r = Some (JBool (changed l)) /\
    (w1 = {| files := Dict.set "/etc/conf.toml"
                        (toml_dumps plain_toml (content l))
                        (files empty_world);
             fs_log := fs_log empty_world
                       ++ [EvDumpTmp (toml_dumps plain_toml (content l));
                           EvAtomicMove "/etc/conf.toml"] |}
     <-> changed l = true /\ false = false) /\
    (w1 = empty_world <-> ~ (changed l = true /\ false = false)).
Proof.
  cbv zeta. split; [reflexivity|].
  apply (persistence_iff_changed plain_toml false "/etc/conf.toml"
           (Some "drinks") None None present true empty_world).
  reflexivity.
Defined.

(** ** Adding a key *)

(** C7: on an empty document the request for [fav = lemonade] in section
    [drinks] creates the section, then the key, reports both and has the
    document written. *)
Theorem scenario_section_and_key_created (L : toml_lib) path create
  (w : world L) :
  load path w = Ok [] ->
  reconcile (Some "drinks") (Some "fav") (Some "lemonade") present []
  = Ok {| content := [("drinks", VTable [("fav", VStr "lemonade")])];
          working_context := CtxSection "drinks";
          changed := true;
          msg := ["Added section drinks."; "Added key fav=lemonade."] |} /\
  do_toml false path (Some "drinks") (Some "fav") (Some "lemonade") present
    create w
  = Ok ([ ("changed", JBool true);
          ("origin_message", JDict [("before", JStr ""); ("after", JStr "")]);
          ("msg", JStr "Added section drinks. Added key fav=lemonade.") ],
        persist path [("drinks", VTable [("fav", VStr "lemonade")])] w).
Proof.
  intros Hl. split; [reflexivity|].
  unfold do_toml. rewrite Hl. reflexivity.
Qed.

Lemma scenario_section_and_key_created_witness :
  @load plain_toml "/etc/conf.toml" empty_world = Ok [] /\
  do_toml false "/etc/conf.toml" (Some "drinks") (Some "fav")
    (Some "lemonade") present true empty_world
  = Ok ([ ("changed", JBool true);
          ("origin_message", JDict [("before", JStr ""); ("after", JStr "")]);
          ("msg", JStr "Added section drinks. Added key fav=lemonade.") ],
        persist "/etc/conf.toml"
          [("drinks", VTable [("fav", VStr "lemonade")])] empty_world).
Proof.
  split; [reflexivity|].
  exact (proj2 (scenario_section_and_key_created plain_toml "/etc/conf.toml"
                  true empty_world eq_refl)).
Defined.

(** C8, as the code has it: with [state=present], a key and no value, a
    key the working dictionary lacks is inserted with the value [None];
    when the dictionary was there before the run (no section asked for, or
    a section the document has), [do_toml] reports [changed = false] and an
    empty message, and writes nothing. *)
Theorem present_key_without_value (L : toml_lib) cm path section k create
  (w : world L) c t :
  k <> "" ->
  load path w = Ok c ->
  context_table section c = Some t ->
  Dict.get k t = None ->
  reconcile section (Some k) None present c
  = Ok {| content := write_back c (context_handle section)
                       (Dict.set k VNone t);
          working_context := context_handle section;
          changed := false;
          msg := [] |} /\
  do_toml cm path section (Some k) None present create w
  = Ok ([ ("changed", JBool false);
          ("origin_message", JDict [("before", JStr ""); ("after", JStr "")]);
          ("msg", JStr "") ],
        w).
Proof.
  intros Hk Hl Ht Hg.
  assert (R : reconcile section (Some k) None present c
              = Ok {| content := write_back c (context_handle section)
                                   (Dict.set k VNone t);
                      working_context := context_handle section;
                      changed := false;
                      msg := [] |}).
  { unfold reconcile, key_step. rewrite (truthy_nonempty k Hk).
    destruct (section_step_on_table section (Some k) present c t
                (truthy_nonempty k Hk) Ht) as [-> D].
    erewrite key_present_table by exact D.
    cbn [fmt]. now rewrite Hg. }
  split; [exact R|].
  now rewrite (do_toml_unfold L cm path _ _ _ _ create w _ _ Hl R).
Qed.

Lemma present_key_without_value_witness :
  "fav" <> "" /\
  @load plain_toml "/etc/conf.toml" empty_world = Ok [] /\
  context_table None [] = Some [] /\
  Dict.get "fav" (@nil (string * value)) = None /\
  reconcile None (Some "fav") None present []
  = Ok {| content := [("fav", VNone)];
          working_context := CtxContent;
          changed := false;
          msg := [] |}.
Proof.
  assert (Hk : "fav" <> "") by discriminate.
  split; [exact Hk | split; [reflexivity | split; [reflexivity |
    split; [reflexivity|]]]].
  exact (proj1 (present_key_without_value plain_toml false "/etc/conf.toml"
                  None "fav" true empty_world [] [] Hk eq_refl eq_refl
                  eq_refl)).
Defined.

(** C8 as stated fails when the section is created by the same run: the
    key is absent from the new, empty working dictionary, yet the run
    reports a change and a message, and the document, [None] entry and all,
    is handed to the serializer. *)
Lemma present_key_without_value_new_section :
  ~ (exists r w',
       do_toml false "/etc/conf.toml" (Some "drinks") (Some "fav") None
         present true empty_world = Ok (r, w') /\
       Dict.get "changed" r = Some (JBool false) /\
       Dict.get "msg" r = Some (JStr "") /\
       w' = empty_world).
Proof.
  intros (r & w' & H & C & _). cbv in H. injection H as <- <-.
  discriminate C.
Qed.

(** What that run does. *)
Lemma new_section_without_value_run :
  do_toml false "/etc/conf.toml" (Some "drinks") (Some "fav") None
    present true empty_world
  = Ok ([ ("changed", JBool true);
          ("origin_message", JDict [("before", JStr ""); ("after", JStr "")]);
          ("msg", JStr "Added section drinks.") ],
        @mkWorld plain_toml
          [("/etc/conf.toml", [("drinks", VTable [("fav", VNone)])])]
          [@EvDumpTmp plain_toml [("drinks", VTable [("fav", VNone)])];
           EvAtomicMove "/etc/conf.toml"]).
Proof. reflexivity. Qed.

(** ** The [create] parameter *)

(** C10: [do_toml] does not look at [create]: two calls that differ in it
    alone are the same call, and a path that does not exist is read as the
    empty document whatever [create] says. *)
Theorem create_is_ignored (L : toml_lib) cm path section key value state
  (w : world L) :
  (forall create1 create2,
      do_toml cm path section key value state create1 w
      = do_toml cm path section key value state create2 w) /\
  (Dict.get path (files w) = None ->
   forall create,
     do_toml cm path section key value state create w =
       (l <- reconcile section key value state [] ;;
        Ok (result_of l,
            if changed l && negb cm then persist path (content l) w
            else w))).
Proof.
  split; [reflexivity|].
  intros H create. unfold do_toml, load. now rewrite H.
Qed.

Lemma create_is_ignored_witness :
  Dict.get "/etc/conf.toml" (files empty_world) = None /\
  do_toml false "/etc/conf.toml" (Some "drinks") None None present false
    empty_world =
    (l <- reconcile (Some "drinks") None None present [] ;;
     Ok (result_of l,
         if changed l && negb false
         then persist "/etc/conf.toml" (content l) empty_world
         else empty_world)).
Proof.
  split; [reflexivity|].
  exact (proj2 (create_is_ignored plain_toml false "/etc/conf.toml"
                  (Some "drinks") None None present empty_world)
           eq_refl false).
Defined.

(** ** Idempotence through the file *)








Lemma deref_section_table d s t :
  deref d (CtxSection s) = VTable t -> Dict.get s d = Some (VTable t).
Proof.
  cbn. destruct (Dict.get s d) as [o|]; [now intros -> | discriminate].
Qed.










(** C1: idempotence of reconciliation does not hold for every request.
    The request [state=absent] with a key, for a section the document does
    not have, is one the code cannot serve: the first application raises
    [TypeError] ([key in None], line 178) and writes nothing, so no second
    application reports [changed = false]. *)
Theorem idempotence_fails_on_missing_section :
  let w0 :=
    @mkWorld plain_toml [("/etc/conf.toml", [("food", VTable [])])] [] in
  let run := do_toml false "/etc/conf.toml" (Some "drinks") (Some "fav")
               None absent true in
  run w0 = Raise TypeError /\
  ~ (exists r1 w1 r2 w2,
        run w0 = Ok (r1, w1) /\ run w1 = Ok (r2, w2) /\
        Dict.get "changed" r2 = Some (JBool false)).
Proof.
  cbv zeta. split; [reflexivity|].
  intros (r1 & w1 & r2 & w2 & H & _). discriminate H.
Qed.

(** * Further properties of the module *)

(** ** More dictionary laws *)

Module DictLaws.
Import Dict.

Section Laws.
Context {V : Type}.
Implicit Types (k : string) (d : list (string * V)).

Lemma set_set k (v v' : V) d : set k v (set k v' d) = set k v d.
Proof.
  induction d as [|[k0 v0] r IH]; cbn.
  - now rewrite String.eqb_refl.
  - destruct (String.eqb k k0) eqn:E; cbn; rewrite E; [reflexivity|].
    now rewrite IH.
Qed.

Lemma set_get_id k (v : V) d : get k d = Some v -> set k v d = d.
Proof.
  induction d as [|[k0 v0] r IH]; cbn; [discriminate|].
  destruct (String.eqb k k0) eqn:E.
  - now intros [= ->].
  - intros G. now rewrite IH.
Qed.

Lemma pop_absent k d : get k d = None -> pop k d = d.
Proof.
  induction d as [|[k0 v0] r IH]; cbn; [reflexivity|].
  destruct (String.eqb k k0) eqn:E; [discriminate|].
  intros G. now rewrite IH.
Qed.

Lemma pop_set_absent k (v : V) d : get k d = None -> pop k (set k v d) = d.
Proof.
  induction d as [|[k0 v0] r IH]; cbn.
  - now rewrite String.eqb_refl.
  - destruct (String.eqb k k0) eqn:E; [discriminate|].
    intros G. cbn. rewrite E. now rewrite IH.
Qed.

Lemma mem_set k k' (v : V) d :
  mem k' (set k v d) = (String.eqb k' k || mem k' d)%bool.
Proof.
  unfold mem. destruct (String.eqb k' k) eqn:E.
  - apply String.eqb_eq in E. subst. now rewrite DictFacts.get_set_same.
  - rewrite DictFacts.get_set_other; [reflexivity|].
    intros ->. now rewrite String.eqb_refl in E.
Qed.

Lemma mem_pop k k' d :
  mem k' (pop k d) = (negb (String.eqb k' k) && mem k' d)%bool.
Proof.
  unfold mem. destruct (String.eqb k' k) eqn:E.
  - apply String.eqb_eq in E. subst. now rewrite DictFacts.get_pop_same.
  - rewrite DictFacts.get_pop_other; [reflexivity|].
    intros ->. now rewrite String.eqb_refl in E.
Qed.

End Laws.

End DictLaws.

(** ** The two steps, in closed form *)

Import DictFacts DictLaws.

Lemma py_eq_true v p : py_eq v p = true -> v = of_param p.
Proof.
  destruct v, p; cbn; try discriminate; auto.
  intros E. apply String.eqb_eq in E. now subst.
Qed.

Lemma deref_table_inv d h t :
  deref d h = VTable t ->
  (h = CtxContent /\ t = d) \/
  (exists s, h = CtxSection s /\ Dict.get s d = Some (VTable t)).
Proof.
  destruct h as [| |s]; cbn.
  - discriminate.
  - intros [= ->]. now left.
  - intros H. right. exists s. split; auto. now apply deref_section_table.
Qed.

Lemma write_back_same d h t : deref d h = VTable t -> write_back d h t = d.
Proof.
  intros H. destruct (deref_table_inv _ _ _ H) as [[-> ->] | (s & -> & G)].
  - reflexivity.
  - cbn. now apply set_get_id.
Qed.

Lemma write_back_twice d h t1 t2 :
  write_back (write_back d h t1) h t2 = write_back d h t2.
Proof. destruct h; cbn; auto. apply set_set. Qed.

Lemma key_present_closed k v l t :
  deref (content l) (working_context l) = VTable t ->
  key_present k v l =
    Ok {| content := write_back (content l) (working_context l)
                       (Dict.set k (of_param v) t);
          working_context := working_context l;
          changed := changed l || negb (holds k v t);
          msg := msg l ++ (if holds k v t then [] else [added_key k v]) |}.
Proof.
  intros D. rewrite (key_present_table _ _ _ _ D). unfold holds.
  destruct l as [c h ch ms]. cbn [content working_context changed msg] in *.
  destruct (Dict.get k t) as [cur|] eqn:G.
  - destruct (py_eq cur v) eqn:E; cbn [negb].
    + apply py_eq_true in E. subst cur.
      rewrite (set_get_id _ _ _ G), (write_back_same _ _ _ D).
      now rewrite orb_false_r, app_nil_r.
    + unfold record_change. cbn. now rewrite orb_true_r.
  - cbv zeta. unfold with_content, record_change.
    cbn [content working_context changed msg].
    destruct v as [s|]; cbn [py_eq negb of_param].
    + rewrite write_back_twice, set_set. now rewrite orb_true_r.
    + now rewrite orb_false_r, app_nil_r.
Qed.

Lemma key_absent_closed k v l t :
  deref (content l) (working_context l) = VTable t ->
  key_absent k v l =
    Ok {| content := write_back (content l) (working_context l)
                       (if goes k v t then Dict.pop k t else t);
          working_context := working_context l;
          changed := changed l || goes k v t;
          msg := msg l ++ (if goes k v t then [removed_key k] else []) |}.
Proof.
  intros D. rewrite (key_absent_table _ _ _ _ D). unfold goes.
  destruct l as [c h ch ms]. cbn [content working_context changed msg] in *.
  destruct (Dict.get k t) as [cur|] eqn:G.
  - destruct (negb (truthy v) || py_eq cur v).
    + unfold record_change. cbn. now rewrite orb_true_r.
    + rewrite (write_back_same _ _ _ D). now rewrite orb_false_r, app_nil_r.
  - rewrite (write_back_same _ _ _ D). now rewrite orb_false_r, app_nil_r.
Qed.

(** ** The whole reconciliation, case by case *)

Lemma request_shape section key c :
  truthy key = false \/
  (truthy key = true /\ exists t, context_table section c = Some t) \/
  (truthy key = true /\ truthy section = true /\
   Dict.get (fmt section) c = None) \/
  (truthy key = true /\ truthy section = true /\
   exists o, Dict.get (fmt section) c = Some o /\ ~ is_table o).
Proof.
  destruct (truthy key); [right | now left].
  unfold context_table. destruct (truthy section); [|left; eauto].
  destruct (Dict.get (fmt section) c) as [o|]; [|right; left; auto].
  destruct o; try (right; right; repeat split; auto; eexists; split;
                   [reflexivity | intros [t' E]; discriminate]).
  left. eauto.
Qed.

Lemma reconcile_no_key section key value state c :
  truthy key = false ->
  reconcile section key value state c
  = Ok (section_step section key state (init_locals c)).
Proof. intros TK. unfold reconcile, key_step. now rewrite TK. Qed.

Lemma reconcile_present_closed section key value c t :
  truthy key = true ->
  context_table section c = Some t ->
  reconcile section key value present c =
    Ok {| content := write_back c (context_handle section)
                       (Dict.set (fmt key) (of_param value) t);
          working_context := context_handle section;
          changed := negb (holds (fmt key) value t);
          msg := if holds (fmt key) value t then []
                 else [added_key (fmt key) value] |}.
Proof.
  intros TK Ht. unfold reconcile, key_step. rewrite TK.
  destruct (section_step_on_table section key present c t TK Ht) as [-> D].
  erewrite key_present_closed by exact D. reflexivity.
Qed.

Lemma reconcile_absent_closed section key value c t :
  truthy key = true ->
  context_table section c = Some t ->
  reconcile section key value absent c =
    Ok {| content := write_back c (context_handle section)
                       (if goes (fmt key) value t
                        then Dict.pop (fmt key) t else t);
          working_context := context_handle section;
          changed := goes (fmt key) value t;
          msg := if goes (fmt key) value t then [removed_key (fmt key)]
                 else [] |}.
Proof.
  intros TK Ht. unfold reconcile, key_step. rewrite TK.
  destruct (section_step_on_table section key absent c t TK Ht) as [-> D].
  erewrite key_absent_closed by exact D. reflexivity.
Qed.

Lemma reconcile_present_new_section section key value c :
  truthy key = true -> truthy section = true ->
  Dict.get (fmt section) c = None ->
  reconcile section key value present c =
    Ok {| content := Dict.set (fmt section)
                       (VTable [(fmt key, of_param value)]) c;
          working_context := CtxSection (fmt section);
          changed := true;
          msg := added_section (fmt section)
                 :: (match value with
                     | None => []
                     | Some _ => [added_key (fmt key) value]
                     end) |}.
Proof.
  intros TK TS G. unfold reconcile, key_step, section_step, init_locals.
  rewrite TK, TS. cbn [content working_context changed msg].
  rewrite (get_none_mem _ _ G). cbn [negb].
  erewrite key_present_closed.
  2:{ cbn. rewrite get_set_same. reflexivity. }
  cbn [with_context record_change content working_context changed msg
       write_back Dict.set].
  rewrite set_set. unfold holds. cbn [Dict.get].
  now destruct value.
Qed.

Lemma reconcile_absent_no_section section key value c :
  truthy key = true -> truthy section = true ->
  Dict.get (fmt section) c = None ->
  reconcile section key value absent c = Raise TypeError.
Proof.
  intros TK TS G. unfold reconcile, key_step, section_step, init_locals.
  rewrite TK, TS. cbn [content]. now rewrite (get_none_mem _ _ G).
Qed.

Lemma reconcile_present_not_table section key value c o :
  truthy key = true -> truthy section = true ->
  Dict.get (fmt section) c = Some o -> ~ is_table o ->
  reconcile section key value present c = Raise TypeError.
Proof.
  intros TK TS G N. unfold reconcile, key_step, section_step, init_locals.
  rewrite TK, TS. cbn [content working_context changed msg].
  rewrite (get_mem _ _ _ G). cbn [negb].
  unfold key_present, with_context.
  cbn [content working_context changed msg deref].
  rewrite G.
  destruct o as [|s|z|b|xs|t]; cbn [py_contains bind]; auto.
  - destruct (is_substring (fmt key) s); cbn [negb bind];
      unfold ctx_setitem; cbn [deref content working_context];
      rewrite ?G; reflexivity.
  - destruct (existsb _ xs); cbn [negb bind];
      unfold ctx_setitem; cbn [deref content working_context];
      rewrite ?G; reflexivity.
  - exfalso. apply N. now exists t.
Qed.

Lemma reconcile_absent_not_table section key value c o :
  truthy key = true -> truthy section = true ->
  Dict.get (fmt section) c = Some o -> ~ is_table o ->
  reconcile section key value absent c
  = Ok {| content := c; working_context := CtxSection (fmt section);
          changed := false; msg := [] |} \/
  reconcile section key value absent c = Raise TypeError \/
  (reconcile section key value absent c = Raise AttributeError /\
   truthy value = false).
Proof.
  intros TK TS G N. unfold reconcile, key_step, section_step, init_locals.
  rewrite TK, TS. cbn [content working_context changed msg].
  rewrite (get_mem _ _ _ G).
  unfold key_absent, remove_key, ctx_pop, with_context.
  cbn [content working_context changed msg deref].
  rewrite G.
  destruct o as [|s|z|b|xs|t]; cbn [py_contains bind]; auto.
  - destruct (is_substring (fmt key) s); auto.
    destruct (truthy value); cbn; auto.
  - destruct (existsb _ xs); auto.
    destruct (truthy value); cbn; auto.
  - exfalso. apply N. now exists t.
Qed.

(** ** When the reconciliation returns, and how it fails *)

(** X5: the reconciliation returns whenever no key is asked for, or the
    key is looked up in a dictionary (the document itself, or a section
    that is a table of it), or the section is created by the request. *)
Theorem reconcile_returns section key value state c :
  truthy key = false \/
  context_table section c <> None \/
  (state = present /\ Dict.get (fmt section) c = None) ->
  exists l, reconcile section key value state c = Ok l.
Proof.
  intros H.
  destruct (request_shape section key c)
    as [TK | [(TK & t & Ht) | [(TK & TS & G) | (TK & TS & o & G & N)]]].
  - rewrite (reconcile_no_key _ _ _ _ _ TK). eauto.
  - destruct state.
    + rewrite (reconcile_present_closed _ _ _ _ _ TK Ht). eauto.
    + rewrite (reconcile_absent_closed _ _ _ _ _ TK Ht). eauto.
  - destruct H as [H | [H | [-> _]]].
    + congruence.
    + exfalso. apply H. unfold context_table. now rewrite TS, G.
    + rewrite (reconcile_present_new_section _ _ _ _ TK TS G). eauto.
  - destruct H as [H | [H | [_ H]]]; try congruence.
    exfalso. apply H. unfold context_table. rewrite TS, G.
    destruct o; auto. exfalso. apply N. eexists. reflexivity.
Qed.

Lemma reconcile_returns_witness :
  (truthy (Some "fav") = false \/
   context_table (Some "drinks") [] <> None \/
   (present = present /\ Dict.get (fmt (Some "drinks")) (@nil (string * value)) = None)) /\
  exists l, reconcile (Some "drinks") (Some "fav") (Some "tea") present []
            = Ok l.
Proof.
  assert (H : truthy (Some "fav") = false \/
              context_table (Some "drinks") [] <> None \/
              (present = present /\
               Dict.get (fmt (Some "drinks")) (@nil (string * value)) = None))
    by (right; right; split; reflexivity).
  split; [exact H|].
  exact (reconcile_returns (Some "drinks") (Some "fav") (Some "tea") present
           [] H).
Defined.

Lemma reconcile_failure_cases section key value state c :
  (forall m, reconcile section key value state c <> FailJson m) /\
  (forall e, reconcile section key value state c = Raise e ->
     truthy key = true /\ truthy section = true /\
     context_table section c = None /\
     (e = TypeError \/
      (e = AttributeError /\ state = absent /\ truthy value = false))).
Proof.
  destruct (request_shape section key c)
    as [TK | [(TK & t & Ht) | [(TK & TS & G) | (TK & TS & o & G & N)]]].
  - rewrite (reconcile_no_key _ _ _ _ _ TK). split; intros; discriminate.
  - destruct state.
    + rewrite (reconcile_present_closed _ _ _ _ _ TK Ht).
      split; intros; discriminate.
    + rewrite (reconcile_absent_closed _ _ _ _ _ TK Ht).
      split; intros; discriminate.
  - assert (Hc : context_table section c = None)
      by (unfold context_table; now rewrite TS, G).
    destruct state.
    + rewrite (reconcile_present_new_section _ _ _ _ TK TS G).
      split; intros; discriminate.
    + rewrite (reconcile_absent_no_section _ _ _ _ TK TS G).
      split; [intros; discriminate|].
      intros e [= <-]. auto.
  - assert (Hc : context_table section c = None).
    { unfold context_table. rewrite TS, G. destruct o; auto.
      exfalso. apply N. eexists. reflexivity. }
    destruct state.
    + rewrite (reconcile_present_not_table _ _ _ _ _ TK TS G N).
      split; [intros; discriminate|].
      intros e [= <-]. auto.
    + destruct (reconcile_absent_not_table _ _ value _ _ TK TS G N)
        as [-> | [-> | [-> TV]]].
      * split; intros; discriminate.
      * split; [intros; discriminate|]. intros e [= <-]. auto.
      * split; [intros; discriminate|]. intros e [= <-].
        repeat split; auto.
Qed.

(** X6: the reconciliation never calls [fail_json] and never raises
    [KeyError]: every [pop] and every index is behind a membership test.
    It raises only for a key in a section that is no table of the document
    (missing, for [state=absent]; bound to a string, a number, an array):
    [TypeError], or [AttributeError] from [pop] when no value guards the
    removal. *)
Theorem reconcile_failures section key value state c :
  (forall m, reconcile section key value state c <> FailJson m) /\
  (forall e, reconcile section key value state c = Raise e ->
     truthy key = true /\ truthy section = true /\
     context_table section c = None /\
     (e = TypeError \/
      (e = AttributeError /\ state = absent /\ truthy value = false))).
Proof. apply reconcile_failure_cases. Qed.

Lemma reconcile_failures_witness :
  reconcile (Some "title") (Some "TOML") None absent
    [("title", VStr "TOML Example")] = Raise AttributeError /\
  truthy (Some "TOML") = true /\ truthy (Some "title") = true /\
  context_table (Some "title") [("title", VStr "TOML Example")] = None /\
  (AttributeError = TypeError \/
   (AttributeError = AttributeError /\ absent = absent /\
    truthy None = false)).
Proof.
  split; [reflexivity|].
  exact (proj2 (reconcile_failures (Some "title") (Some "TOML") None absent
                  [("title", VStr "TOML Example")])
           AttributeError eq_refl).
Defined.

(** ** What a request leaves in the document *)

Lemma context_table_write_back section c t t' :
  context_table section c = Some t ->
  context_table section (write_back c (context_handle section) t') = Some t'.
Proof.
  unfold context_table, context_handle.
  destruct (truthy section); cbn; [|reflexivity].
  intros _. now rewrite get_set_same.
Qed.

Lemma context_table_deref section c t :
  context_table section c = Some t ->
  deref c (context_handle section) = VTable t.
Proof.
  unfold context_table, context_handle.
  destruct (truthy section); cbn.
  - destruct (Dict.get (fmt section) c) as [[| | | | |t0]|]; try discriminate.
    now intros [= ->].
  - now intros [= ->].
Qed.

(** X7: after a [state=present] request with a key has returned, the key
    is in its dictionary (the section, now a table of the document, or the
    document itself) and holds the requested value -- [None] when no value
    was given. *)
Theorem present_key_is_set section key value c l :
  truthy key = true ->
  reconcile section key value present c = Ok l ->
  exists t, context_table section (content l) = Some t /\
            Dict.get (fmt key) t = Some (of_param value).
Proof.
  intros TK.
  destruct (request_shape section key c)
    as [TK' | [(_ & t & Ht) | [(_ & TS & G) | (_ & TS & o & G & N)]]].
  - congruence.
  - rewrite (reconcile_present_closed _ _ _ _ _ TK Ht). intros [= <-].
    cbn [content]. eexists. split.
    + now apply (context_table_write_back _ _ t).
    + apply get_set_same.
  - rewrite (reconcile_present_new_section _ _ _ _ TK TS G). intros [= <-].
    cbn [content]. exists [(fmt key, of_param value)]. split.
    + unfold context_table. now rewrite TS, get_set_same.
    + cbn. now rewrite String.eqb_refl.
  - now rewrite (reconcile_present_not_table _ _ _ _ _ TK TS G N).
Qed.

Lemma present_key_is_set_witness :
  truthy (Some "fav") = true /\
  reconcile (Some "drinks") (Some "fav") (Some "tea") present drinks_doc
  = Ok {| content := [("drinks", VTable [("fav", VStr "tea")])];
          working_context := CtxSection "drinks";
          changed := true; msg := ["Added key fav=tea."] |} /\
  exists t,
    context_table (Some "drinks") [("drinks", VTable [("fav", VStr "tea")])]
    = Some t /\
    Dict.get "fav" t = Some (VStr "tea").
Proof.
  split; [reflexivity | split; [reflexivity|]].
  exact (present_key_is_set (Some "drinks") (Some "fav") (Some "tea")
           drinks_doc _ eq_refl eq_refl).
Defined.

(** X8: after a [state=absent] request has returned, what it named
    unguarded is gone: the section, when no key was given; the key, when no
    value (or the empty one) was given, from the dictionary it is looked up
    in. *)
Theorem absent_is_absent section key value c l :
  reconcile section key value absent c = Ok l ->
  (truthy key = false -> truthy section = true ->
   Dict.get (fmt section) (content l) = None) /\
  (truthy key = true -> truthy value = false ->
   forall t, context_table section (content l) = Some t ->
             Dict.get (fmt key) t = None).
Proof.
  destruct (request_shape section key c)
    as [TK | [(TK & t & Ht) | [(TK & TS & G) | (TK & TS & o & G & N)]]].
  - rewrite (reconcile_no_key _ _ _ _ _ TK). intros [= <-].
    split; [|congruence]. intros _ TS.
    unfold section_step, init_locals. rewrite TS, TK.
    cbn [content]. destruct (Dict.mem (fmt section) c) eqn:M; cbn.
    + apply get_pop_same.
    + now apply mem_false_get.
  - rewrite (reconcile_absent_closed _ _ _ _ _ TK Ht). intros [= <-].
    split; [congruence|]. intros _ TV t'. cbn [content].
    rewrite (context_table_write_back _ _ t _ Ht). intros [= <-].
    unfold goes. rewrite TV. cbn [negb orb].
    destruct (Dict.get (fmt key) t) eqn:G; auto. apply get_pop_same.
  - now rewrite (reconcile_absent_no_section _ _ _ _ TK TS G).
  - assert (Hc : context_table section c = None).
    { unfold context_table. rewrite TS, G. destruct o; auto.
      exfalso. apply N. eexists. reflexivity. }
    destruct (reconcile_absent_not_table _ _ value _ _ TK TS G N)
      as [-> | [-> | [-> _]]]; try discriminate.
    intros [= <-]. split; [congruence|]. cbn [content]. congruence.
Qed.

Lemma absent_is_absent_witness :
  reconcile (Some "drinks") None None absent drinks_doc
  = Ok {| content := []; working_context := CtxNone;
          changed := true; msg := ["Removed section drinks."] |} /\
  (truthy None = false -> truthy (Some "drinks") = true ->
   Dict.get "drinks" (@nil (string * value)) = None).
Proof.
  split; [reflexivity|].
  exact (proj1 (absent_is_absent (Some "drinks") None None drinks_doc _
                  eq_refl)).
Defined.

(** ** What a request leaves alone *)

Lemma reconcile_frame section key value state c l :
  reconcile section key value state c = Ok l ->
  (forall k', k' <> (if truthy section then fmt section else fmt key) ->
              Dict.get k' (content l) = Dict.get k' c) /\
  (truthy section = true -> truthy key = true ->
   forall t, Dict.get (fmt section) c = Some (VTable t) ->
   exists t', Dict.get (fmt section) (content l) = Some (VTable t') /\
              forall k', k' <> fmt key -> Dict.get k' t' = Dict.get k' t).
Proof.
  destruct (request_shape section key c)
    as [TK | [(TK & t & Ht) | [(TK & TS & G) | (TK & TS & o & G & N)]]].
  - rewrite (reconcile_no_key _ _ _ _ _ TK). intros [= <-].
    split; [|congruence]. intros k'.
    unfold section_step, init_locals. rewrite TK.
    cbn [content]. destruct (truthy section); [|reflexivity].
    intros Hk. destruct state, (Dict.mem (fmt section) c); cbn; auto.
    + apply get_set_other. congruence.
    + apply get_pop_other. congruence.
  - assert (F : forall T,
               (forall k', k' <> fmt key -> Dict.get k' T = Dict.get k' t) ->
               (forall k', k' <> (if truthy section then fmt section
                                  else fmt key) ->
                  Dict.get k' (write_back c (context_handle section) T)
                  = Dict.get k' c) /\
               (truthy section = true -> truthy key = true ->
                forall t0, Dict.get (fmt section) c = Some (VTable t0) ->
                exists t', Dict.get (fmt section)
                             (write_back c (context_handle section) T)
                           = Some (VTable t') /\
                           forall k', k' <> fmt key ->
                                      Dict.get k' t' = Dict.get k' t0)).
    { intros T HT. revert Ht. unfold context_table, context_handle.
      destruct (truthy section); cbn.
      - intros Ht. split.
        + intros k' Hk. apply get_set_other. congruence.
        + intros _ _ t0 G0. rewrite G0 in Ht. injection Ht as ->.
          exists T. split; auto. apply get_set_same.
      - intros [= ->]. split; [auto | discriminate]. }
    destruct state.
    + rewrite (reconcile_present_closed _ _ _ _ _ TK Ht). intros [= <-].
      cbn [content]. apply F. intros k' Hk. apply get_set_other. congruence.
    + rewrite (reconcile_absent_closed _ _ _ _ _ TK Ht). intros [= <-].
      cbn [content]. apply F. intros k' Hk.
      destruct (goes (fmt key) value t); auto.
      apply get_pop_other. congruence.
  - destruct state.
    + rewrite (reconcile_present_new_section _ _ _ _ TK TS G).
      intros [= <-]. cbn [content]. rewrite TS. split.
      * intros k' Hk. apply get_set_other. congruence.
      * intros _ _ t G'. congruence.
    + now rewrite (reconcile_absent_no_section _ _ _ _ TK TS G).
  - destruct state.
    + now rewrite (reconcile_present_not_table _ _ _ _ _ TK TS G N).
    + destruct (reconcile_absent_not_table _ _ value _ _ TK TS G N)
        as [-> | [-> | [-> _]]]; try discriminate.
      intros [= <-]. cbn [content]. split; auto.
      intros _ _ t G'. exfalso. apply N. exists t. congruence.
Qed.

(** X9: a request touches one entry.  Every top-level entry other than the
    one it names (the section, or the key when no section is given) is as
    it was; and when it names a key in a section that was a table, the
    section is still a table and its other keys are as they were. *)
Theorem other_entries_untouched section key value state c l :
  reconcile section key value state c = Ok l ->
  (forall k', k' <> (if truthy section then fmt section else fmt key) ->
              Dict.get k' (content l) = Dict.get k' c) /\
  (truthy section = true -> truthy key = true ->
   forall t, Dict.get (fmt section) c = Some (VTable t) ->
   exists t', Dict.get (fmt section) (content l) = Some (VTable t') /\
              forall k', k' <> fmt key -> Dict.get k' t' = Dict.get k' t).
Proof. apply reconcile_frame. Qed.

Lemma other_entries_untouched_witness :
  let c := [("title", VStr "TOML Example");
            ("drinks", VTable [("fav", VStr "lemonade"); ("ice", VBool true)])]
  in
  let c' := [("title", VStr "TOML Example");
             ("drinks", VTable [("fav", VStr "tea"); ("ice", VBool true)])] in
  reconcile (Some "drinks") (Some "fav") (Some "tea") present c
  = Ok {| content := c'; working_context := CtxSection "drinks";
          changed := true; msg := ["Added key fav=tea."] |} /\
  (forall k', k' <> "drinks" -> Dict.get k' c' = Dict.get k' c).
Proof.
  cbv zeta.
  match goal with |- ?A /\ _ => assert (H : A) by reflexivity end.
  split; [exact H|].
  exact (proj1 (other_entries_untouched _ _ _ _ _ _ H)).
Defined.

(** X10: [state=present] never removes a top-level entry of the document
    and [state=absent] never adds one (no section is created to remove a
    key from it). *)
Theorem present_keeps_absent_adds_nothing section key value state c l :
  reconcile section key value state c = Ok l ->
  forall k',
    match state with
    | present => Dict.mem k' c = true -> Dict.mem k' (content l) = true
    | absent => Dict.mem k' (content l) = true -> Dict.mem k' c = true
    end.
Proof.
  intros H k'.
  destruct (String.eqb k' (if truthy section then fmt section else fmt key))
    eqn:E.
  2:{ assert (Hk : k' <> (if truthy section then fmt section else fmt key))
        by (intros ->; now rewrite String.eqb_refl in E).
      unfold Dict.mem.
      rewrite (proj1 (reconcile_frame _ _ _ _ _ _ H) k' Hk).
      destruct state; auto. }
  apply String.eqb_eq in E. subst k'. revert H.
  destruct (request_shape section key c)
    as [TK | [(TK & t & Ht) | [(TK & TS & G) | (TK & TS & o & G & N)]]].
  - rewrite (reconcile_no_key _ _ _ _ _ TK). intros [= <-].
    unfold section_step, init_locals. rewrite TK. cbn [content].
    destruct (truthy section); [|destruct state; auto].
    destruct state, (Dict.mem (fmt section) c) eqn:M; cbn;
      rewrite ?M, ?mem_pop_same; auto; discriminate.
  - revert Ht. unfold context_table.
    destruct (truthy section) eqn:TS.
    + destruct (Dict.get (fmt section) c) as [[| | | | |t0]|] eqn:G;
        try discriminate.
      intros [= ->]. destruct state.
      * rewrite (reconcile_present_closed section _ _ _ t TK)
          by (unfold context_table; now rewrite TS, G).
        intros [= <-] _. cbn [content]. unfold context_handle. rewrite TS.
        apply mem_set_same.
      * intros _ _. now apply (get_mem _ _ _ G).
    + intros [= <-]. destruct state.
      * rewrite (reconcile_present_closed section _ _ _ c TK)
          by (unfold context_table; now rewrite TS).
        intros [= <-] _. cbn [content]. unfold context_handle. rewrite TS.
        apply mem_set_same.
      * rewrite (reconcile_absent_closed section _ _ _ c TK)
          by (unfold context_table; now rewrite TS).
        intros [= <-]. cbn [content]. unfold context_handle. rewrite TS.
        cbn [write_back]. destruct (goes (fmt key) value c); auto.
        now rewrite mem_pop_same.
  - rewrite TS. destruct state.
    + intros _ M. rewrite (get_none_mem _ _ G) in M. discriminate.
    + now rewrite (reconcile_absent_no_section _ _ _ _ TK TS G).
  - rewrite TS. destruct state.
    + now rewrite (reconcile_present_not_table _ _ _ _ _ TK TS G N).
    + intros _ _. now apply (get_mem _ _ _ G).
Qed.

Lemma present_keeps_absent_adds_nothing_witness :
  reconcile (Some "food") (Some "fav") None absent [("food", VTable [])]
  = Ok {| content := [("food", VTable [])];
          working_context := CtxSection "food";
          changed := false; msg := [] |} /\
  (Dict.mem "drinks" [("food", VTable [])] = true ->
   Dict.mem "drinks" [("food", VTable [])] = true).
Proof.
  match goal with |- ?A /\ _ => assert (H : A) by reflexivity end.
  split; [exact H|].
  exact (present_keeps_absent_adds_nothing _ _ _ _ _ _ H "drinks").
Defined.

(** ** The flag, the messages and the document *)

Lemma holds_true_set k value t :
  holds k value t = true -> value <> None \/ Dict.get k t <> None ->
  Dict.set k (of_param value) t = t.
Proof.
  unfold holds. destruct (Dict.get k t) as [cur|] eqn:G.
  - intros E _. apply py_eq_true in E. subst. now apply set_get_id.
  - destruct value; [discriminate|]. intros _ [H | H]; congruence.
Qed.

(** X11: a run that reports no change has left the document as it was --
    but for one case: [state=present] with a key and no value inserts the
    key with [None] when it is missing, and says nothing. *)
Theorem unchanged_means_untouched section key value state c l :
  reconcile section key value state c = Ok l ->
  changed l = false ->
  state = absent \/ truthy key = false \/ value <> None ->
  content l = c.
Proof.
  destruct (request_shape section key c)
    as [TK | [(TK & t & Ht) | [(TK & TS & G) | (TK & TS & o & G & N)]]].
  - rewrite (reconcile_no_key _ _ _ _ _ TK). intros [= <-].
    unfold section_step, init_locals. cbn [content]. rewrite TK.
    destruct (truthy section); [|reflexivity].
    destruct state, (Dict.mem (fmt section) c); cbn; auto; discriminate.
  - pose proof (context_table_deref _ _ _ Ht) as D.
    destruct state.
    + rewrite (reconcile_present_closed _ _ _ _ _ TK Ht). intros [= <-].
      cbn [content changed]. intros C [H | [H | H]]; try congruence.
      apply negb_false_iff in C.
      rewrite (holds_true_set _ _ _ C) by auto.
      now apply write_back_same.
    + rewrite (reconcile_absent_closed _ _ _ _ _ TK Ht). intros [= <-].
      cbn [content changed]. intros -> _. now apply write_back_same.
  - destruct state.
    + rewrite (reconcile_present_new_section _ _ _ _ TK TS G).
      intros [= <-]. discriminate.
    + now rewrite (reconcile_absent_no_section _ _ _ _ TK TS G).
  - destruct state.
    + now rewrite (reconcile_present_not_table _ _ _ _ _ TK TS G N).
    + destruct (reconcile_absent_not_table _ _ value _ _ TK TS G N)
        as [-> | [-> | [-> _]]]; try discriminate.
      now intros [= <-].
Qed.

Lemma unchanged_means_untouched_witness :
  reconcile (Some "drinks") (Some "fav") (Some "tea") absent drinks_doc
  = Ok {| content := drinks_doc; working_context := CtxSection "drinks";
          changed := false; msg := [] |} /\
  drinks_doc = drinks_doc.
Proof.
  match goal with |- ?A /\ _ => assert (H : A) by reflexivity end.
  split; [exact H|].
  exact (unchanged_means_untouched _ _ _ _ _ _ H eq_refl
           (or_introl eq_refl)).
Defined.

Lemma reconcile_changed_msg section key value state c l :
  reconcile section key value state c = Ok l ->
  (changed l = false /\ msg l = []) \/
  (changed l = true /\ exists m ms, msg l = m :: ms /\
     (m = added_section (fmt section) \/ m = removed_section (fmt section) \/
      m = added_key (fmt key) value \/ m = removed_key (fmt key))).
Proof.
  destruct (request_shape section key c)
    as [TK | [(TK & t & Ht) | [(TK & TS & G) | (TK & TS & o & G & N)]]].
  - rewrite (reconcile_no_key _ _ _ _ _ TK). intros [= <-].
    unfold section_step, init_locals. rewrite TK.
    cbn [content changed msg working_context].
    destruct (truthy section); [|now left].
    destruct state, (Dict.mem (fmt section) c); cbn; auto;
      right; split; auto; do 2 eexists; split; eauto.
  - destruct state.
    + rewrite (reconcile_present_closed _ _ _ _ _ TK Ht). intros [= <-].
      cbn. destruct (holds (fmt key) value t); cbn; auto.
      right; split; auto; do 2 eexists; split; eauto.
    + rewrite (reconcile_absent_closed _ _ _ _ _ TK Ht). intros [= <-].
      cbn. destruct (goes (fmt key) value t); cbn; auto.
      right; split; auto; do 2 eexists; split; eauto.
  - destruct state.
    + rewrite (reconcile_present_new_section _ _ _ _ TK TS G).
      intros [= <-]. cbn. right; split; auto; do 2 eexists; split; eauto.
    + now rewrite (reconcile_absent_no_section _ _ _ _ TK TS G).
  - destruct state.
    + now rewrite (reconcile_present_not_table _ _ _ _ _ TK TS G N).
    + destruct (reconcile_absent_not_table _ _ value _ _ TK TS G N)
        as [-> | [-> | [-> _]]]; try discriminate.
      intros [= <-]. now left.
Qed.

Lemma concat_nonempty m ms :
  m <> "" -> String.concat " " (m :: ms) <> "".
Proof.
  destruct m as [|a m']; [congruence|]. intros _.
  destruct ms; cbn; discriminate.
Qed.

(** X12: the result says [changed] exactly when it has something to say:
    [msg] is the empty string if and only if [changed] is false. *)
Theorem changed_iff_message (L : toml_lib) cm path section key value state
  create (w : world L) r w' :
  do_toml cm path section key value state create w = Ok (r, w') ->
  (Dict.get "changed" r = Some (JBool false) <->
   Dict.get "msg" r = Some (JStr "")).
Proof.
  intros H.
  destruct (do_toml_inv _ _ _ _ _ _ _ _ _ _ _ H) as (c & l & _ & Hr & -> & _).
  unfold result_of. cbn [Dict.get String.eqb Ascii.eqb Bool.eqb].
  destruct (reconcile_changed_msg _ _ _ _ _ _ Hr)
    as [[-> ->] | (-> & m & ms & -> & Hm)].
  - cbn. tauto.
  - split; [discriminate|]. intros [= E]. exfalso.
    apply (concat_nonempty m ms); auto.
    destruct Hm as [-> | [-> | [-> | ->]]]; discriminate.
Qed.

Lemma changed_iff_message_witness :
  let r := [ ("changed", JBool true);
             ("origin_message",
              JDict [("before", JStr ""); ("after", JStr "")]);
             ("msg", JStr "Removed key fav.") ] in
  (exists w',
     do_toml false "/etc/conf.toml" None (Some "fav") None absent true
       (@mkWorld plain_toml [("/etc/conf.toml", [("fav", VInt 3)])] [])
     = Ok (r, w')) /\
  (Dict.get "changed" r = Some (JBool false) <->
   Dict.get "msg" r = Some (JStr "")).
Proof.
  cbv zeta. split; [eexists; reflexivity|].
  eapply (changed_iff_message plain_toml false "/etc/conf.toml" None
            (Some "fav") None absent true
            (@mkWorld plain_toml [("/etc/conf.toml", [("fav", VInt 3)])] [])).
  reflexivity.
Defined.

(** ** The files *)



Lemma run_module_inv (L : toml_lib) path section key value state create
  (w : world L) r w' :
  run_module false path section key value state create w = Ok (r, w') ->
  exists w1,
    do_toml false path section key value state create w = Ok (r, w1) /\
    w' = (if Dict.mem path (files w1)
          then {| files := files w1;
                  fs_log := fs_log w1 ++ [EvSetFsAttributes path] |}
          else w1).
Proof.
  unfold run_module.
  destruct (do_toml false path section key value state create w)
    as [[r0 w0]|e|m0]; cbn [bind negb andb]; try discriminate.
  intros [= <- <-]. exists w0. split; reflexivity.
Qed.

Lemma do_toml_files (L : toml_lib) cm path section key value state create
  (w : world L) r w' p' :
  do_toml cm path section key value state create w = Ok (r, w') ->
  p' <> path -> Dict.get p' (files w') = Dict.get p' (files w).
Proof.
  intros H Hp.
  destruct (do_toml_inv _ _ _ _ _ _ _ _ _ _ _ H) as (c & l & _ & _ & _ & ->).
  destruct (changed l && negb cm); [|reflexivity].
  cbn. apply DictFacts.get_set_other. congruence.
Qed.

(** X13: a run writes to [path] and to nothing else: every other file is,
    after [do_toml] and after [run_module], what it was before. *)
Theorem other_files_untouched (L : toml_lib) cm path section key value state
  create (w : world L) r w' p' :
  p' <> path ->
  (do_toml cm path section key value state create w = Ok (r, w') ->
   Dict.get p' (files w') = Dict.get p' (files w)) /\
  (run_module cm path section key value state create w = Ok (r, w') ->
   Dict.get p' (files w') = Dict.get p' (files w)).
Proof.
  intros Hp. split.
  - intros H. now apply (do_toml_files _ _ _ _ _ _ _ _ _ _ _ _ H).
  - destruct cm.
    + cbn. now intros [= _ <-].
    + intros H. destruct (run_module_inv _ _ _ _ _ _ _ _ _ _ H)
        as (w1 & H1 & ->).
      rewrite <- (do_toml_files _ _ _ _ _ _ _ _ _ _ _ p' H1 Hp).
      now destruct (Dict.mem path (files w1)).
Qed.

Lemma other_files_untouched_witness :
  let w := @mkWorld plain_toml
             [("/etc/other.toml", [("a", VInt 1)]); ("/etc/conf.toml", [])]
             [] in
  let w' := @mkWorld plain_toml
              [("/etc/other.toml", [("a", VInt 1)]);
               ("/etc/conf.toml", [("drinks", VTable [])])]
              [@EvDumpTmp plain_toml [("drinks", VTable [])];
               EvAtomicMove "/etc/conf.toml"] in
  "/etc/other.toml" <> "/etc/conf.toml" /\
  (do_toml false "/etc/conf.toml" (Some "drinks") None None present true w
   = Ok ([ ("changed", JBool true);
           ("origin_message", JDict [("before", JStr ""); ("after", JStr "")]);
           ("msg", JStr "Added section drinks.") ], w') ->
   Dict.get "/etc/other.toml" (files w')
   = Dict.get "/etc/other.toml" (files w)).
Proof.
  cbv zeta. assert (Hp : "/etc/other.toml" <> "/etc/conf.toml")
    by discriminate.
  split; [exact Hp|].
  exact (proj1 (other_files_untouched plain_toml false "/etc/conf.toml"
                  (Some "drinks") None None present true _ _ _
                  "/etc/other.toml" Hp)).
Defined.

Lemma reconcile_absent_empty section key value l :
  reconcile section key value absent [] = Ok l ->
  content l = [] /\ changed l = false /\ msg l = [].
Proof.
  destruct (request_shape section key [])
    as [TK | [(TK & t & Ht) | [(TK & TS & G) | (TK & TS & o & G & N)]]].
  - rewrite (reconcile_no_key _ _ _ _ _ TK). intros [= <-].
    unfold section_step, init_locals. rewrite TK.
    now destruct (truthy section).
  - rewrite (reconcile_absent_closed _ _ _ _ _ TK Ht). intros [= <-].
    revert Ht. unfold context_table, context_handle.
    destruct (truthy section); [discriminate|]. intros [= <-].
    now cbn.
  - now rewrite (reconcile_absent_no_section _ _ _ _ TK TS G).
  - discriminate G.
Qed.

(** X14: [state=absent] never creates the file: on a path that does not
    exist a run that returns reports no change and leaves the file system
    as it was, with no file at [path] and no attribute touched. *)
Theorem absent_never_creates_file (L : toml_lib) cm path section key value
  create (w : world L) r w' :
  Dict.get path (files w) = None ->
  run_module cm path section key value absent create w = Ok (r, w') ->
  w' = w /\ Dict.get "changed" r = Some (JBool false).
Proof.
  intros G. destruct cm.
  - cbn. now intros [= <- <-].
  - intros H. destruct (run_module_inv _ _ _ _ _ _ _ _ _ _ H)
      as (w1 & H1 & ->).
    destruct (do_toml_inv _ _ _ _ _ _ _ _ _ _ _ H1)
      as (c & l & Hl & Hr & -> & ->).
    unfold load in Hl. rewrite G in Hl. injection Hl as <-.
    destruct (reconcile_absent_empty _ _ _ _ Hr) as (_ & C & _).
    rewrite C. cbn [andb]. rewrite (DictFacts.get_none_mem _ _ G).
    split; [reflexivity|]. cbn. now rewrite C.
Qed.

Lemma absent_never_creates_file_witness :
  Dict.get "/etc/conf.toml" (files empty_world) = None /\
  run_module false "/etc/conf.toml" (Some "drinks") None None absent true
    empty_world
  = Ok ([ ("changed", JBool false);
          ("origin_message", JDict [("before", JStr ""); ("after", JStr "")]);
          ("msg", JStr "") ], empty_world) /\
  empty_world = empty_world.
Proof.
  split; [reflexivity|].
  match goal with |- ?A /\ _ => assert (H : A) by reflexivity end.
  split; [exact H|].
  exact (proj1 (absent_never_creates_file plain_toml false "/etc/conf.toml"
                  (Some "drinks") None None true empty_world _ _ eq_refl H)).
Defined.

(** X15: after [do_toml], a real run normalises the file's attributes
    exactly when the file is there: it was there before, or the run
    changed the document and so wrote it.  The result it hands on is
    [do_toml]'s. *)
Theorem attributes_follow_the_file (L : toml_lib) path section key value
  state create (w : world L) r w' :
  run_module false path section key value state create w = Ok (r, w') ->
  exists w1 ch,
    do_toml false path section key value state create w = Ok (r, w1) /\
    Dict.get "changed" r = Some (JBool ch) /\
    files w' = files w1 /\
    fs_log w' = fs_log w1 ++
                (if Dict.mem path (files w) || ch
                 then [EvSetFsAttributes path] else []).
Proof.
  intros H. destruct (run_module_inv _ _ _ _ _ _ _ _ _ _ H) as (w1 & H1 & ->).
  destruct (do_toml_inv _ _ _ _ _ _ _ _ _ _ _ H1)
    as (c & l & Hl & Hr & -> & E).
  exists w1, (changed l). split; [exact H1|]. split; [reflexivity|].
  assert (M : Dict.mem path (files w1)
              = Dict.mem path (files w) || changed l).
  { subst w1. destruct (changed l); cbn [andb negb].
    - cbn. rewrite DictFacts.mem_set_same. now rewrite orb_true_r.
    - now rewrite orb_false_r. }
  rewrite <- M. destruct (Dict.mem path (files w1)); cbn.
  - split; reflexivity.
  - split; [reflexivity|]. now rewrite app_nil_r.
Qed.

Lemma attributes_follow_the_file_witness :
  let w := @mkWorld plain_toml [("/etc/conf.toml", drinks_doc)] [] in
  let r := [ ("changed", JBool false);
             ("origin_message",
              JDict [("before", JStr ""); ("after", JStr "")]);
             ("msg", JStr "") ] in
  let w' := @mkWorld plain_toml [("/etc/conf.toml", drinks_doc)]
              [EvSetFsAttributes "/etc/conf.toml"] in
  run_module false "/etc/conf.toml" (Some "drinks") (Some "fav")
    (Some "lemonade") present true w = Ok (r, w') /\
  exists w1 ch,
    do_toml false "/etc/conf.toml" (Some "drinks") (Some "fav")
      (Some "lemonade") present true w = Ok (r, w1) /\
    Dict.get "changed" r = Some (JBool ch) /\
    files w' = files w1 /\
    fs_log w' = fs_log w1 ++
                (if Dict.mem "/etc/conf.toml" (files w) || ch
                 then [EvSetFsAttributes "/etc/conf.toml"] else []).
Proof.
  cbv zeta.
  match goal with |- ?A /\ _ => assert (H : A) by reflexivity end.
  split; [exact H|].
  exact (attributes_follow_the_file plain_toml _ _ _ _ _ _ _ _ _ H).
Defined.

(** ** Adding, then removing *)

Lemma goes_after_set k value t :
  goes k value (Dict.set k (of_param value) t) = true.
Proof.
  unfold goes. rewrite get_set_same, py_eq_of_param. apply orb_true_r.
Qed.

(** X16: removing undoes adding.  When a key that its dictionary lacks is
    added by a [state=present] request, the same request with
    [state=absent] removes it again and the document is, entry for entry
    and in order, the one before the two runs. *)
Theorem add_then_remove_key section key value c t l1 :
  truthy key = true ->
  context_table section c = Some t ->
  Dict.get (fmt key) t = None ->
  reconcile section key value present c = Ok l1 ->
  reconcile section key value absent (content l1)
  = Ok {| content := c; working_context := context_handle section;
          changed := true; msg := [removed_key (fmt key)] |}.
Proof.
  intros TK Ht G.
  rewrite (reconcile_present_closed _ _ _ _ _ TK Ht). intros [= <-].
  cbn [content].
  rewrite (reconcile_absent_closed section key value _
             (Dict.set (fmt key) (of_param value) t) TK)
    by now apply (context_table_write_back _ _ t).
  rewrite goes_after_set, write_back_twice, (pop_set_absent _ _ _ G).
  now rewrite (write_back_same _ _ _ (context_table_deref _ _ _ Ht)).
Qed.

Lemma add_then_remove_key_witness :
  truthy (Some "ice") = true /\
  context_table (Some "drinks") drinks_doc = Some [("fav", VStr "lemonade")] /\
  Dict.get "ice" [("fav", VStr "lemonade")] = None /\
  reconcile (Some "drinks") (Some "ice") (Some "no") present drinks_doc
  = Ok {| content := [("drinks", VTable [("fav", VStr "lemonade");
                                         ("ice", VStr "no")])];
          working_context := CtxSection "drinks";
          changed := true; msg := ["Added key ice=no."] |} /\
  reconcile (Some "drinks") (Some "ice") (Some "no") absent
    [("drinks", VTable [("fav", VStr "lemonade"); ("ice", VStr "no")])]
  = Ok {| content := drinks_doc; working_context := CtxSection "drinks";
          changed := true; msg := ["Removed key ice."] |}.
Proof.
  split; [reflexivity | split; [reflexivity | split; [reflexivity|]]].
  match goal with |- ?A /\ _ => assert (H : A) by reflexivity end.
  split; [exact H|].
  exact (add_then_remove_key (Some "drinks") (Some "ice") (Some "no")
           drinks_doc [("fav", VStr "lemonade")] _ eq_refl eq_refl eq_refl H).
Defined.

(** X17: a section that the document lacks is created by a
    [state=present] request without a key, as an empty table at the end of
    the document, and removed again by the [state=absent] request, which
    gives the document back as it was. *)
Theorem add_then_remove_section section key value value' c :
  truthy section = true -> truthy key = false ->
  Dict.get (fmt section) c = None ->
  reconcile section key value present c
  = Ok {| content := c ++ [(fmt section, VTable [])];
          working_context := CtxSection (fmt section);
          changed := true; msg := [added_section (fmt section)] |} /\
  reconcile section key value' absent (c ++ [(fmt section, VTable [])])
  = Ok {| content := c; working_context := CtxNone;
          changed := true; msg := [removed_section (fmt section)] |}.
Proof.
  intros TS TK G.
  assert (S : Dict.set (fmt section) (VTable []) c
              = c ++ [(fmt section, VTable [])]).
  { clear TS. induction c as [|[k0 v0] r IH]; cbn in *; auto.
    destruct (String.eqb (fmt section) k0); [discriminate|].
    now rewrite IH. }
  rewrite <- S. rewrite !reconcile_no_key by exact TK.
  unfold section_step, init_locals. rewrite TS, TK.
  cbn [content working_context changed msg].
  rewrite (get_none_mem _ _ G), mem_set_same, (pop_set_absent _ _ _ G).
  split; reflexivity.
Qed.

Lemma add_then_remove_section_witness :
  truthy (Some "food") = true /\ truthy None = false /\
  Dict.get "food" drinks_doc = None /\
  reconcile (Some "food") None None present drinks_doc
  = Ok {| content := drinks_doc ++ [("food", VTable [])];
          working_context := CtxSection "food";
          changed := true; msg := ["Added section food."] |}.
Proof.
  split; [reflexivity | split; [reflexivity | split; [reflexivity|]]].
  exact (proj1 (add_then_remove_section (Some "food") None None None
                  drinks_doc eq_refl eq_refl eq_refl)).
Defined.

(** ** The settled lemmas, at work *)

Lemma reconcile_again_witness :
  reconcile (Some "drinks") (Some "fav") None present []
  = Ok {| content := [("drinks", VTable [("fav", VNone)])];
          working_context := CtxSection "drinks";
          changed := true; msg := ["Added section drinks."] |} /\
  reconcile (Some "drinks") (Some "fav") None present
    [("drinks", VTable [("fav", VNone)])]
  = Ok {| content := [("drinks", VTable [("fav", VNone)])];
          working_context := CtxSection "drinks";
          changed := false; msg := [] |}.
Proof.
  match goal with |- ?A /\ _ => assert (H : A) by reflexivity end.
  split; [exact H|].
  exact (reconcile_again _ _ _ _ _ _ H).
Defined.
